(** * GlfwApp: the frame loop, key handling and text overlay of
      examples/cpp/common/GlfwApp.cpp

    The C++ class is embedded as functions over an explicit [State]: the
    members of the object, the part of the GLFW / GL world the file reads
    back (the should-close flag, the event queue, the clock, the two matrix
    stacks) and the chronological list of calls made to the outside.
    Exceptions are an outcome of the monad [M]; the [while] loop is driven by
    fuel, one unit per iteration. *)

From Stdlib Require Import ZArith List String Bool Lia.
Import ListNotations.
Local Open Scope Z_scope.

(** ** Machine integers *)

Module MachineInt.

(** Two's complement reduction of [x] to a signed [bits]-bit integer. *)
Definition wrap (bits : Z) (x : Z) : Z :=
  (x + 2 ^ (bits - 1)) mod 2 ^ bits - 2 ^ (bits - 1).

Definition INT_MAX : Z := 2 ^ 31 - 1.

(** [++i] on an [int]. *)
Definition int_incr (x : Z) : Z := wrap 32 (x + 1).

(** [a - b] on [long] (LP64). *)
Definition long_sub (a b : Z) : Z := wrap 64 (a - b).

End MachineInt.
Export MachineInt.

(** ** Floating point values and matrices

    Floating point results are kept as the expression that computes them;
    nothing is claimed about rounding. *)

Inductive float : Type :=
| f_lit (num den : Z)          (* a literal, [1000.f] is [f_lit 1000 1] *)
| f_of_int (z : Z)             (* conversion of an int or long *)
| f_neg (a : float)
| f_mul (a b : float)
| f_div (a b : float)
| f_aspect (w h : Z).          (* aspect(windowSize) *)

Definition vec2 : Type := (float * float)%type.
Definition uvec2 : Type := (Z * Z)%type.
Definition ivec2 : Type := (Z * Z)%type.

Inductive mat4 : Type :=
| m_given (id : nat)           (* a matrix put there by somebody else *)
| m_identity
| m_ortho (l r b t n f : float).

(** Modelled from the spec: the MatrixStack class is declared outside
    GlfwApp.cpp.  It is a never-empty stack of matrices with the scoped
    push/pop discipline: [push] duplicates the top, [pop] drops it, and
    [identity] and assignment through [top()] overwrite the top entry. *)
Record MatrixStack : Type := { top : mat4; below : list mat4 }.

Definition push (st : MatrixStack) : MatrixStack :=
  {| top := top st; below := top st :: below st |}.

Definition pop (st : MatrixStack) : MatrixStack :=
  match below st with
  | m :: rest => {| top := m; below := rest |}
  | [] => st
  end.

Definition set_top (m : mat4) (st : MatrixStack) : MatrixStack :=
  {| top := m; below := below st |}.

Definition identity (st : MatrixStack) : MatrixStack := set_top m_identity st.

Definition depth (st : MatrixStack) : nat := S (List.length (below st)).

(** ** GLFW constants used by the key handler (glfw3.h) *)

Definition GLFW_RELEASE : Z := 0.
Definition GLFW_PRESS : Z := 1.
Definition GLFW_REPEAT : Z := 2.
Definition GLFW_KEY_S : Z := 83.
Definition GLFW_KEY_ESCAPE : Z := 256.
Definition GLFW_MOD_SHIFT : Z := 1.

Inductive WindowHint : Type :=
| GLFW_DEPTH_BITS
| GLFW_CONTEXT_VERSION_MAJOR
| GLFW_CONTEXT_VERSION_MINOR
| GLFW_OPENGL_PROFILE
| GLFW_OPENGL_FORWARD_COMPAT
| GLFW_OPENGL_DEBUG_CONTEXT.

Inductive HintValue : Type :=
| hint_int (v : Z)
| GLFW_OPENGL_CORE_PROFILE
| GL_TRUE.

(** ** Handles, exceptions, events *)

(** A non-null [GLFWwindow*]; the null pointer is [None]. *)
Definition GLFWwindow : Type := nat.

(** What a [catch (std::runtime_error &)] clause tells apart: a
    [std::runtime_error] (or a class derived from it) and anything else. *)
Inductive exn : Type :=
| runtime_error (what : string)
| other_exception (what : string).

Definition double : Type := (Z * Z)%type.   (* payload of a callback, never inspected *)

(** The native events GLFW hands over inside [glfwPollEvents]. *)
Inductive InputEvent : Type :=
| KeyEvent (key scancode action mods : Z)
| MouseButtonEvent (button action mods : Z)
| CursorEnterEvent (entered : Z)
| CursorPosEvent (x y : double)
| CharEvent (codepoint : Z)
| ScrollEvent (x y : double)
| WindowCloseEvent.            (* the user closed the window: GLFW raises the flag itself *)

Inductive GlCall : Type :=
| BindDrawFramebuffer
| BindReadFramebuffer
| EnableCullFace
| EnableDepthTest
| DisableDither.

(** Calls that leave the object, in the order they are made. *)
Inductive Event : Type :=
| E_glfwWindowHint (h : WindowHint) (v : HintValue)
| E_createRenderingTarget (size : uvec2) (pos : ivec2)
| E_glfwMakeContextCurrent (w : option GLFWwindow)
| E_glfwSetWindowUserPointer (w : option GLFWwindow)
| E_glfwSetKeyCallback (w : option GLFWwindow)
| E_glfwSetMouseButtonCallback (w : option GLFWwindow)
| E_glfwSetCursorPosCallback (w : option GLFWwindow)
| E_glfwSetCursorEnterCallback (w : option GLFWwindow)
| E_glfwSetCharCallback (w : option GLFWwindow)
| E_glfwSetScrollCallback (w : option GLFWwindow)
| E_glfwSwapInterval (n : Z)
| E_glewInit
| E_glGetError
| E_glEnable_DEBUG_OUTPUT_SYNCHRONOUS
| E_glDebugMessageCallback
| E_glDebugMessageControl
| E_glDebugMessageCallbackARB
| E_glDebugMessageControlARB
| E_oglplus (c : GlCall)
| E_runShutdownHooks
| E_glfwPollEvents
| E_onKey (key scancode action mods : Z)
| E_onMouseButton (button action mods : Z)
| E_onMouseEnter (entered : Z)
| E_onMouseMove (x y : double)
| E_onCharacter (codepoint : Z)
| E_onScroll (x y : double)
| E_glfwSetWindowShouldClose (w : option GLFWwindow) (v : Z)
| E_screenshot
| E_update
| E_draw
| E_glfwSwapBuffers (w : option GLFWwindow)
| E_elapsedMillis (t : Z)
| E_renderString (str : string) (cursor : vec2) (size : float)
| E_SAY_FPS (fps : float)
| E_SAY (msg : string).

(** ** The state *)

Record State : Type := {
  (* members of GlfwApp *)
  window : option GLFWwindow;
  windowSize : uvec2;
  windowPosition : ivec2;
  windowAspect : float;
  windowAspectInverse : float;
  frame : Z;
  fps : float;
  (* the world *)
  shouldClose : bool;            (* glfwWindowShouldClose of the one window *)
  polls : nat;                   (* glfwPollEvents calls so far *)
  ticks : nat;                   (* Platform::elapsedMillis calls so far *)
  modelview : MatrixStack;       (* Stacks::modelview() *)
  projection : MatrixStack;      (* Stacks::projection() *)
  trace : list Event
}.

Definition add_trace (evs : list Event) (s : State) : State :=
  {| window := window s; windowSize := windowSize s;
     windowPosition := windowPosition s; windowAspect := windowAspect s;
     windowAspectInverse := windowAspectInverse s; frame := frame s;
     fps := fps s; shouldClose := shouldClose s; polls := polls s;
     ticks := ticks s; modelview := modelview s; projection := projection s;
     trace := trace s ++ evs |}.

Definition log (e : Event) (s : State) : State := add_trace [e] s.

Definition set_window (w : option GLFWwindow) (s : State) : State :=
  {| window := w; windowSize := windowSize s;
     windowPosition := windowPosition s; windowAspect := windowAspect s;
     windowAspectInverse := windowAspectInverse s; frame := frame s;
     fps := fps s; shouldClose := shouldClose s; polls := polls s;
     ticks := ticks s; modelview := modelview s; projection := projection s;
     trace := trace s |}.

Definition set_aspect (a ai : float) (s : State) : State :=
  {| window := window s; windowSize := windowSize s;
     windowPosition := windowPosition s; windowAspect := a;
     windowAspectInverse := ai; frame := frame s;
     fps := fps s; shouldClose := shouldClose s; polls := polls s;
     ticks := ticks s; modelview := modelview s; projection := projection s;
     trace := trace s |}.

Definition set_frame (n : Z) (s : State) : State :=
  {| window := window s; windowSize := windowSize s;
     windowPosition := windowPosition s; windowAspect := windowAspect s;
     windowAspectInverse := windowAspectInverse s; frame := n;
     fps := fps s; shouldClose := shouldClose s; polls := polls s;
     ticks := ticks s; modelview := modelview s; projection := projection s;
     trace := trace s |}.

Definition set_fps (f : float) (s : State) : State :=
  {| window := window s; windowSize := windowSize s;
     windowPosition := windowPosition s; windowAspect := windowAspect s;
     windowAspectInverse := windowAspectInverse s; frame := frame s;
     fps := f; shouldClose := shouldClose s; polls := polls s;
     ticks := ticks s; modelview := modelview s; projection := projection s;
     trace := trace s |}.

Definition set_shouldClose (b : bool) (s : State) : State :=
  {| window := window s; windowSize := windowSize s;
     windowPosition := windowPosition s; windowAspect := windowAspect s;
     windowAspectInverse := windowAspectInverse s; frame := frame s;
     fps := fps s; shouldClose := b; polls := polls s;
     ticks := ticks s; modelview := modelview s; projection := projection s;
     trace := trace s |}.

Definition set_polls (n : nat) (s : State) : State :=
  {| window := window s; windowSize := windowSize s;
     windowPosition := windowPosition s; windowAspect := windowAspect s;
     windowAspectInverse := windowAspectInverse s; frame := frame s;
     fps := fps s; shouldClose := shouldClose s; polls := n;
     ticks := ticks s; modelview := modelview s; projection := projection s;
     trace := trace s |}.

Definition set_ticks (n : nat) (s : State) : State :=
  {| window := window s; windowSize := windowSize s;
     windowPosition := windowPosition s; windowAspect := windowAspect s;
     windowAspectInverse := windowAspectInverse s; frame := frame s;
     fps := fps s; shouldClose := shouldClose s; polls := polls s;
     ticks := n; modelview := modelview s; projection := projection s;
     trace := trace s |}.

Definition set_stacks (mv pr : MatrixStack) (s : State) : State :=
  {| window := window s; windowSize := windowSize s;
     windowPosition := windowPosition s; windowAspect := windowAspect s;
     windowAspectInverse := windowAspectInverse s; frame := frame s;
     fps := fps s; shouldClose := shouldClose s; polls := polls s;
     ticks := ticks s; modelview := mv; projection := pr;
     trace := trace s |}.

(** ** The monad: state, exceptions, fuel *)

Inductive outcome (A : Type) : Type :=
| Done (a : A) (s : State)       (* returned normally *)
| Raised (e : exn) (s : State)   (* left by a C++ exception *)
| Running (s : State).           (* the fuel ran out inside the frame loop *)

Arguments Done {A} a s.
Arguments Raised {A} e s.
Arguments Running {A} s.

Definition M (A : Type) : Type := State -> outcome A.

Definition ret {A : Type} (a : A) : M A := fun s => Done a s.

Definition bind {A B : Type} (m : M A) (k : A -> M B) : M B :=
  fun s =>
    match m s with
    | Done a s' => k a s'
    | Raised e s' => Raised e s'
    | Running s' => Running s'
    end.

Notation "x <- m ;; k" := (bind m (fun x => k))
  (at level 61, m at next level, right associativity).
Notation "m ;; k" := (bind m (fun _ => k))
  (at level 61, right associativity).

Definition throw {A : Type} (e : exn) : M A := fun s => Raised e s.

Definition emit (e : Event) : M unit := fun s => Done tt (log e s).

Definition modify (f : State -> State) : M unit := fun s => Done tt (f s).

Definition gets {A : Type} (f : State -> A) : M A := fun s => Done (f s) s.

(** An external call or a subclass hook that may raise: [None] returns. *)
Definition may_raise (r : option exn) : M unit :=
  match r with
  | None => ret tt
  | Some e => throw e
  end.

(** Modelled from the spec: the FAIL macro comes from Common.h.  A failure
    is raised as the one generic recoverable error kind, carrying the
    message. *)
Definition FAIL {A : Type} (msg : string) : M A := throw (runtime_error msg).

(** Modelled from the spec: the Finally class comes from Common.h.  It is a
    scope guard: the cleanup is the destructor of a local, so it runs when
    the scope is left by return, and when it is left by an exception for
    which the stack is unwound, that is, one that some handler takes
    ([unwinds e]).  An exception that no handler takes ends the program in
    std::terminate before any destructor has run, and the cleanup is not
    made.  While the body is still running nothing is cleaned up. *)
Definition Finally {A : Type} (unwinds : exn -> bool) (cleanup : M unit)
  (body : M A) : M A :=
  fun s =>
    match body s with
    | Done a s' => (cleanup ;; ret a) s'
    | Raised e s' => if unwinds e then (cleanup ;; throw e) s' else Raised e s'
    | Running s' => Running s'
    end.

(** [try { body } catch (std::runtime_error & err) { handler(err.what()) }]:
    the locals of the try block are unwound before the handler runs, and
    an exception of another kind passes through. *)
Definition try_catch_runtime_error (body : M unit) (handler : string -> M unit)
  : M unit :=
  fun s =>
    match body s with
    | Done a s' => Done a s'
    | Raised (runtime_error what) s' => handler what s'
    | Raised (other_exception what) s' => Raised (other_exception what) s'
    | Running s' => Running s'
    end.

(** ** What the object does not decide

    The build, the results of the external calls, the subclass hooks the
    file leaves open and the two input streams (native events per poll,
    clock readings per call).

    [update] and [draw] are the extension points of a subclass: a hook is
    given by whether it returns or raises in a given frame, and what it does
    to the subclass's own data is not part of the state.  The other virtual
    members ([preCreate], [postCreate], [initGl], [shutdownGl],
    [finishFrame], the input handlers, [screenshot]) are the bodies of
    GlfwApp.cpp.  An external call is recorded with its arguments; what GLFW
    does when it is handed a null window is not modelled.  [caller_catches]
    says whether the code that called run() has a handler for the
    exceptions run() does not take itself. *)

Record Env : Type := {
  on_mac : bool;                                   (* ON_MAC *)
  debug_build : bool;                              (* #ifdef DEBUG *)
  createRenderingTarget_result : option GLFWwindow;
  glewInit_result : Z;
  has_glDebugMessageCallback : bool;
  has_glDebugMessageCallbackARB : bool;
  oglplus_result : GlCall -> option exn;           (* oglplus checks every call *)
  update_hook : Z -> option exn;                   (* update() of the subclass, by frame *)
  draw_hook : Z -> option exn;                     (* draw() of the subclass, by frame *)
  pending : nat -> list InputEvent;                (* events handed over by the n-th poll *)
  clock : nat -> Z;                                (* n-th reading of elapsedMillis *)
  renderString_effect :
    string -> vec2 -> float -> MatrixStack * MatrixStack ->
    (MatrixStack * MatrixStack) * option exn;      (* oria::renderString *)
  caller_catches : bool                            (* a caller of run() handles what run() lets through *)
}.

(** Whether the stack is unwound for an exception raised inside the try
    block of [run]: a runtime_error is taken by the handler of [run], an
    exception of another kind only by a handler of a caller, if there is
    one. *)
Definition unwound (env : Env) (e : exn) : bool :=
  match e with
  | runtime_error _ => true
  | other_exception _ => caller_catches env
  end.

(** ** The members of GlfwApp *)

Module GlfwApp.

Definition getFrame : M Z := gets frame.
Definition getSize : M uvec2 := gets windowSize.
Definition getPosition : M ivec2 := gets windowPosition.
Definition getWindow : M (option GLFWwindow) := gets window.

Definition glfwWindowHint (h : WindowHint) (v : HintValue) : M unit :=
  emit (E_glfwWindowHint h v).

Definition preCreate (env : Env) : M unit :=
  glfwWindowHint GLFW_DEPTH_BITS (hint_int 16) ;;
  glfwWindowHint GLFW_CONTEXT_VERSION_MAJOR (hint_int 3) ;;
  glfwWindowHint GLFW_CONTEXT_VERSION_MINOR (hint_int 3) ;;
  glfwWindowHint GLFW_OPENGL_PROFILE GLFW_OPENGL_CORE_PROFILE ;;
  (if on_mac env
   then glfwWindowHint GLFW_OPENGL_FORWARD_COMPAT GL_TRUE
   else ret tt) ;;
  (if debug_build env
   then glfwWindowHint GLFW_OPENGL_DEBUG_CONTEXT GL_TRUE
   else ret tt).

(** [window = createRenderingTarget(windowSize, windowPosition)]. *)
Definition createRenderingTarget (env : Env) : M unit :=
  fun s =>
    Done tt (set_window (createRenderingTarget_result env)
               (log (E_createRenderingTarget (windowSize s) (windowPosition s)) s)).

(** A GLFW call that takes the window member as its first argument. *)
Definition on_window (call : option GLFWwindow -> Event) : M unit :=
  fun s => Done tt (log (call (window s)) s).

Definition postCreate (env : Env) : M unit :=
  on_window E_glfwMakeContextCurrent ;;
  modify (fun s =>
            let a := f_aspect (fst (windowSize s)) (snd (windowSize s)) in
            set_aspect a (f_div (f_lit 1 1) a) s) ;;
  on_window E_glfwSetWindowUserPointer ;;
  on_window E_glfwSetKeyCallback ;;
  on_window E_glfwSetMouseButtonCallback ;;
  on_window E_glfwSetCursorPosCallback ;;
  on_window E_glfwSetCursorEnterCallback ;;
  on_window E_glfwSetCharCallback ;;
  on_window E_glfwSetScrollCallback ;;
  emit (E_glfwSwapInterval 1) ;;
  emit E_glewInit ;;
  (if negb (0 =? glewInit_result env)
   then FAIL "Failed to initialize GLEW"
   else ret tt) ;;
  emit E_glGetError ;;
  emit E_glEnable_DEBUG_OUTPUT_SYNCHRONOUS ;;
  (if has_glDebugMessageCallback env
   then emit E_glDebugMessageCallback ;; emit E_glDebugMessageControl
   else if has_glDebugMessageCallbackARB env
   then emit E_glDebugMessageCallbackARB ;; emit E_glDebugMessageControlARB
   else ret tt).

Definition oglplus (env : Env) (c : GlCall) : M unit :=
  emit (E_oglplus c) ;; may_raise (oglplus_result env c).

Definition initGl (env : Env) : M unit :=
  oglplus env BindDrawFramebuffer ;;
  oglplus env BindReadFramebuffer ;;
  oglplus env EnableCullFace ;;
  oglplus env EnableDepthTest ;;
  oglplus env DisableDither.

Definition shutdownGl : M unit := emit E_runShutdownHooks.

(** The subclass hooks: the call is recorded, then the hook returns or
    raises.  The default [update] of this file is [fun _ => None]. *)
Definition update (env : Env) : M unit :=
  emit E_update ;; f <- gets frame ;; may_raise (update_hook env f).

Definition draw (env : Env) : M unit :=
  emit E_draw ;; f <- gets frame ;; may_raise (draw_hook env f).

Definition finishFrame : M unit := on_window E_glfwSwapBuffers.

Definition screenshot : M unit := emit E_screenshot.

Definition glfwSetWindowShouldClose (v : Z) : M unit :=
  on_window (fun w => E_glfwSetWindowShouldClose w v) ;;
  modify (set_shouldClose (negb (v =? 0))).

Definition glfwWindowShouldClose : M bool := gets shouldClose.

Definition onKey (key scancode action mods : Z) : M unit :=
  if negb (GLFW_PRESS =? action) then ret tt
  else if key =? GLFW_KEY_ESCAPE then glfwSetWindowShouldClose 1
  else if key =? GLFW_KEY_S then
    (if negb (Z.land mods GLFW_MOD_SHIFT =? 0) then screenshot else ret tt)
  else ret tt.

Definition onCharacter (code_point : Z) : M unit := ret tt.
Definition onMouseButton (button action mods : Z) : M unit := ret tt.
Definition onMouseMove (x y : double) : M unit := ret tt.
Definition onMouseEnter (entered : Z) : M unit := ret tt.
Definition onScroll (x y : double) : M unit := ret tt.

(** The static trampolines: each forwards to the handler of the instance. *)
Definition KeyCallback (key scancode action mods : Z) : M unit :=
  emit (E_onKey key scancode action mods) ;; onKey key scancode action mods.
Definition MouseButtonCallback (button action mods : Z) : M unit :=
  emit (E_onMouseButton button action mods) ;; onMouseButton button action mods.
Definition CursorEnterCallback (enter : Z) : M unit :=
  emit (E_onMouseEnter enter) ;; onMouseEnter enter.
Definition MouseMoveCallback (x y : double) : M unit :=
  emit (E_onMouseMove x y) ;; onMouseMove x y.
Definition CharacterCallback (codepoint : Z) : M unit :=
  emit (E_onCharacter codepoint) ;; onCharacter codepoint.
Definition ScrollCallback (x y : double) : M unit :=
  emit (E_onScroll x y) ;; onScroll x y.

(** One native event, handed to the callback registered for it. *)
Definition deliver (ev : InputEvent) : M unit :=
  match ev with
  | KeyEvent key scancode action mods => KeyCallback key scancode action mods
  | MouseButtonEvent button action mods => MouseButtonCallback button action mods
  | CursorEnterEvent entered => CursorEnterCallback entered
  | CursorPosEvent x y => MouseMoveCallback x y
  | CharEvent codepoint => CharacterCallback codepoint
  | ScrollEvent x y => ScrollCallback x y
  | WindowCloseEvent => modify (set_shouldClose true)
  end.

Fixpoint deliver_all (evs : list InputEvent) : M unit :=
  match evs with
  | [] => ret tt
  | ev :: rest => deliver ev ;; deliver_all rest
  end.

(** [glfwPollEvents()]: drains the events pending at this poll, calling
    the callbacks inline. *)
Definition glfwPollEvents (env : Env) : M unit :=
  emit E_glfwPollEvents ;;
  n <- gets polls ;;
  modify (set_polls (S n)) ;;
  deliver_all (pending env n).

Definition elapsedMillis (env : Env) : M Z :=
  n <- gets ticks ;;
  modify (set_ticks (S n)) ;;
  emit (E_elapsedMillis (clock env n)) ;;
  ret (clock env n).

(** One pass through the body of the [while] of [run]; the two locals
    [framecount] and [start] go in and come out. *)
Definition loop_body (env : Env) (framecount start : Z) : M (Z * Z) :=
  glfwPollEvents env ;;
  modify (fun s => set_frame (int_incr (frame s)) s) ;;
  update env ;;
  draw env ;;
  finishFrame ;;
  now <- elapsedMillis env ;;
  let framecount := int_incr framecount in
  if 2000 <=? long_sub now start then
    let elapsed := f_div (f_of_int (long_sub now start)) (f_lit 1000 1) in
    modify (set_fps (f_div (f_of_int framecount) elapsed)) ;;
    f <- gets fps ;;
    emit (E_SAY_FPS f) ;;
    ret (0, now)
  else ret (framecount, start).

(** [while (!glfwWindowShouldClose(window)) { ... }], at most [fuel]
    iterations. *)
Fixpoint frame_loop (env : Env) (fuel : nat) (framecount start : Z) : M unit :=
  closing <- glfwWindowShouldClose ;;
  if closing : bool then ret tt
  else
    match fuel with
    | O => fun s => Running s
    | S fuel' =>
        locals <- loop_body env framecount start ;;
        frame_loop env fuel' (fst locals) (snd locals)
    end.

(** The body of the [try] block of [run]. *)
Definition run_try (env : Env) (fuel : nat) : M unit :=
  preCreate env ;;
  createRenderingTarget env ;;
  postCreate env ;;
  w <- gets window ;;
  (match w with
   | None => FAIL "Unable to create OpenGL window"
   | Some _ => ret tt
   end) ;;
  initGl env ;;
  Finally (unwound env) shutdownGl
    (start <- elapsedMillis env ;;
     frame_loop env fuel 0 start).

Definition run (env : Env) (fuel : nat) : M Z :=
  try_catch_runtime_error (run_try env fuel) (fun what => emit (E_SAY what)) ;;
  ret 0.

Definition renderStringAt (env : Env) (str : string) (pos : vec2) : M unit :=
  modify (fun s => set_stacks (identity (push (modelview s))) (projection s) s) ;;
  wai <- gets windowAspectInverse ;;
  modify (fun s =>
            set_stacks (modelview s)
              (set_top (m_ortho (f_neg (f_lit 1 1)) (f_lit 1 1)
                                (f_neg wai) wai
                                (f_neg (f_lit 100 1)) (f_lit 100 1))
                       (push (projection s))) s) ;;
  let cursor := (fst pos, f_mul wai (snd pos)) in
  emit (E_renderString str cursor (f_lit 18 1)) ;;
  (fun s =>
     let '(stacks, r) :=
       renderString_effect env str cursor (f_lit 18 1) (modelview s, projection s) in
     may_raise r (set_stacks (fst stacks) (snd stacks) s)) ;;
  modify (fun s => set_stacks (modelview s) (pop (projection s)) s) ;;
  modify (fun s => set_stacks (pop (modelview s)) (projection s) s).

Definition renderStringAt_xy (env : Env) (str : string) (x y : float) : M unit :=
  renderStringAt env str (x, y).

End GlfwApp.
Import GlfwApp.

(** ** The object before [run]

    Modelled from the spec: the member initialisers are part of the class
    declaration (Common.h), which is outside GlfwApp.cpp.  The frame counter
    starts from 0, no window is held yet and the close flag is unset; a
    MatrixStack starts with the identity on it. *)
Definition created (size : uvec2) (pos : ivec2) : State :=
  {| window := None; windowSize := size; windowPosition := pos;
     windowAspect := f_lit 1 1; windowAspectInverse := f_lit 1 1;
     frame := 0; fps := f_lit 0 1;
     shouldClose := false; polls := O; ticks := O;
     modelview := {| top := m_identity; below := [] |};
     projection := {| top := m_identity; below := [] |};
     trace := [] |}.

(** ** Reading a trace *)

Definition is_shutdown (e : Event) : bool :=
  match e with E_runShutdownHooks => true | _ => false end.

Definition is_screenshot (e : Event) : bool :=
  match e with E_screenshot => true | _ => false end.

Definition is_say (e : Event) : bool :=
  match e with E_SAY _ | E_SAY_FPS _ => true | _ => false end.

Definition is_say_fps (e : Event) : bool :=
  match e with E_SAY_FPS _ => true | _ => false end.

(** The calls only the frame loop makes. *)
Definition is_loop_call (e : Event) : bool :=
  match e with
  | E_glfwPollEvents | E_update | E_draw | E_glfwSwapBuffers _ => true
  | _ => false
  end.

Definition is_update_or_draw (e : Event) : bool :=
  match e with E_update | E_draw => true | _ => false end.

Definition calls (p : Event -> bool) (t : list Event) : nat :=
  List.length (filter p t).

(** The state an outcome ends in. *)
Definition final {A : Type} (o : outcome A) : State :=
  match o with
  | Done _ s | Raised _ s | Running s => s
  end.

(** ** Environments to run the model on *)

Definition no_events : nat -> list InputEvent := fun _ => [].

(** A clock that advances 16 ms per reading. *)
Definition clock_16ms : nat -> Z := fun n => 16 * Z.of_nat n.

Definition quiet_renderString
  (str : string) (cursor : vec2) (size : float)
  (stacks : MatrixStack * MatrixStack) : (MatrixStack * MatrixStack) * option exn :=
  (stacks, None).

(** A desktop build in which every external call succeeds, the default
    hooks are in place and the caller of run() handles what run() lets
    through; [events] and [time] are the two input streams. *)
Definition plain_env (events : nat -> list InputEvent) (time : nat -> Z) : Env :=
  {| on_mac := false; debug_build := false;
     createRenderingTarget_result := Some 1%nat;
     glewInit_result := 0;
     has_glDebugMessageCallback := true;
     has_glDebugMessageCallbackARB := false;
     oglplus_result := fun _ => None;
     update_hook := fun _ => None;
     draw_hook := fun _ => None;
     pending := events;
     clock := time;
     renderString_effect := quiet_renderString;
     caller_catches := true |}.

Definition with_window (w : option GLFWwindow) (env : Env) : Env :=
  {| on_mac := on_mac env; debug_build := debug_build env;
     createRenderingTarget_result := w;
     glewInit_result := glewInit_result env;
     has_glDebugMessageCallback := has_glDebugMessageCallback env;
     has_glDebugMessageCallbackARB := has_glDebugMessageCallbackARB env;
     oglplus_result := oglplus_result env;
     update_hook := update_hook env;
     draw_hook := draw_hook env;
     pending := pending env;
     clock := clock env;
     renderString_effect := renderString_effect env;
     caller_catches := caller_catches env |}.

Definition with_update (h : Z -> option exn) (env : Env) : Env :=
  {| on_mac := on_mac env; debug_build := debug_build env;
     createRenderingTarget_result := createRenderingTarget_result env;
     glewInit_result := glewInit_result env;
     has_glDebugMessageCallback := has_glDebugMessageCallback env;
     has_glDebugMessageCallbackARB := has_glDebugMessageCallbackARB env;
     oglplus_result := oglplus_result env;
     update_hook := h;
     draw_hook := draw_hook env;
     pending := pending env;
     clock := clock env;
     renderString_effect := renderString_effect env;
     caller_catches := caller_catches env |}.

Definition with_renderString
  (r : string -> vec2 -> float -> MatrixStack * MatrixStack ->
       (MatrixStack * MatrixStack) * option exn) (env : Env) : Env :=
  {| on_mac := on_mac env; debug_build := debug_build env;
     createRenderingTarget_result := createRenderingTarget_result env;
     glewInit_result := glewInit_result env;
     has_glDebugMessageCallback := has_glDebugMessageCallback env;
     has_glDebugMessageCallbackARB := has_glDebugMessageCallbackARB env;
     oglplus_result := oglplus_result env;
     update_hook := update_hook env;
     draw_hook := draw_hook env;
     pending := pending env;
     clock := clock env;
     renderString_effect := r;
     caller_catches := caller_catches env |}.

(** The escape key goes down during the [n]-th poll (counted from 0). *)
Definition escape_at (n : nat) : nat -> list InputEvent :=
  fun k => if Nat.eqb k n then [KeyEvent GLFW_KEY_ESCAPE 9 GLFW_PRESS 0] else [].

(** ** Reading the native events *)

Definition is_escape_press (ev : InputEvent) : bool :=
  match ev with
  | KeyEvent key _ action _ => (action =? GLFW_PRESS) && (key =? GLFW_KEY_ESCAPE)
  | _ => false
  end.

(** The capture combination: S goes down while shift is held. *)
Definition is_capture_press (ev : InputEvent) : bool :=
  match ev with
  | KeyEvent key _ action mods =>
      (action =? GLFW_PRESS) && (key =? GLFW_KEY_S)
      && negb (Z.land mods GLFW_MOD_SHIFT =? 0)
  | _ => false
  end.

Definition is_key_event (ev : InputEvent) : bool :=
  match ev with KeyEvent _ _ _ _ => true | _ => false end.

Definition is_window_close (ev : InputEvent) : bool :=
  match ev with WindowCloseEvent => true | _ => false end.

(** A key event that is neither the close key going down nor the capture
    combination. *)
Definition plain_key (ev : InputEvent) : Prop :=
  is_key_event ev = true /\ is_escape_press ev = false /\ is_capture_press ev = false.

(** The calls one native event leads to: the handler it is routed to and
    what the default handler does in turn. *)
Definition dispatch_calls (w : option GLFWwindow) (ev : InputEvent) : list Event :=
  match ev with
  | KeyEvent key scancode action mods =>
      E_onKey key scancode action mods ::
      (if is_escape_press ev then [E_glfwSetWindowShouldClose w 1]
       else if is_capture_press ev then [E_screenshot]
       else [])
  | MouseButtonEvent button action mods => [E_onMouseButton button action mods]
  | CursorEnterEvent entered => [E_onMouseEnter entered]
  | CursorPosEvent x y => [E_onMouseMove x y]
  | CharEvent codepoint => [E_onCharacter codepoint]
  | ScrollEvent x y => [E_onScroll x y]
  | WindowCloseEvent => []
  end.

Definition raises_flag (ev : InputEvent) : bool :=
  is_escape_press ev || is_window_close ev.

(** The state a poll leaves behind (see [glfwPollEvents_eq]). *)
Definition polled (env : Env) (s : State) : State :=
  let evs := pending env (polls s) in
  set_shouldClose (shouldClose s || existsb raises_flag evs)
    (add_trace (E_glfwPollEvents :: flat_map (dispatch_calls (window s)) evs)
       (set_polls (S (polls s)) s)).

(** The state after the poll and [++frame] of one pass. *)
Definition entered (env : Env) (s : State) : State :=
  set_frame (int_incr (frame s)) (polled env s).

(** The state after the three hooks and the clock reading of one pass, when
    the hooks return. *)
Definition presented (env : Env) (s : State) : State :=
  add_trace [E_update; E_draw; E_glfwSwapBuffers (window s);
             E_elapsedMillis (clock env (ticks s))]
    (set_ticks (S (ticks s)) (entered env s)).

(** [(float)framecount / ((now - start) / 1000.f)] after [++framecount]. *)
Definition new_fps (framecount start now : Z) : float :=
  f_div (f_of_int (int_incr framecount))
        (f_div (f_of_int (long_sub now start)) (f_lit 1000 1)).

(** The first [n] passes of the frame loop, when there are that many: the
    flag is down at the head of each and each body runs to its end. *)
Fixpoint iterate (env : Env) (n : nat) (framecount start : Z) (s : State)
  : option (Z * Z * State) :=
  match n with
  | O => Some (framecount, start, s)
  | S n' =>
      if shouldClose s then None
      else
        match loop_body env framecount start s with
        | Done locals s' => iterate env n' (fst locals) (snd locals) s'
        | _ => None
        end
  end.

(** ** The calls of the set-up phase *)

Definition preCreate_calls (env : Env) : list Event :=
  [E_glfwWindowHint GLFW_DEPTH_BITS (hint_int 16);
   E_glfwWindowHint GLFW_CONTEXT_VERSION_MAJOR (hint_int 3);
   E_glfwWindowHint GLFW_CONTEXT_VERSION_MINOR (hint_int 3);
   E_glfwWindowHint GLFW_OPENGL_PROFILE GLFW_OPENGL_CORE_PROFILE]
  ++ (if on_mac env then [E_glfwWindowHint GLFW_OPENGL_FORWARD_COMPAT GL_TRUE] else [])
  ++ (if debug_build env then [E_glfwWindowHint GLFW_OPENGL_DEBUG_CONTEXT GL_TRUE] else []).

(** [postCreate] up to and including [glewInit()], on the handle [w]. *)
Definition postCreate_head (w : option GLFWwindow) : list Event :=
  [E_glfwMakeContextCurrent w; E_glfwSetWindowUserPointer w;
   E_glfwSetKeyCallback w; E_glfwSetMouseButtonCallback w;
   E_glfwSetCursorPosCallback w; E_glfwSetCursorEnterCallback w;
   E_glfwSetCharCallback w; E_glfwSetScrollCallback w;
   E_glfwSwapInterval 1; E_glewInit].

(** [postCreate] after [glewInit()] succeeded. *)
Definition postCreate_tail (env : Env) : list Event :=
  [E_glGetError; E_glEnable_DEBUG_OUTPUT_SYNCHRONOUS]
  ++ (if has_glDebugMessageCallback env
      then [E_glDebugMessageCallback; E_glDebugMessageControl]
      else if has_glDebugMessageCallbackARB env
      then [E_glDebugMessageCallbackARB; E_glDebugMessageControlARB]
      else []).

Definition initGl_calls : list Event :=
  [E_oglplus BindDrawFramebuffer; E_oglplus BindReadFramebuffer;
   E_oglplus EnableCullFace; E_oglplus EnableDepthTest; E_oglplus DisableDither].

(** The members after [createRenderingTarget] and the assignments of
    [postCreate]. *)
Definition targeted (env : Env) (s : State) : State :=
  set_aspect (f_aspect (fst (windowSize s)) (snd (windowSize s)))
    (f_div (f_lit 1 1) (f_aspect (fst (windowSize s)) (snd (windowSize s))))
    (set_window (createRenderingTarget_result env) s).

(** The calls of [run] from its first line to the [glewInit()] of
    [postCreate]. *)
Definition opening_calls (env : Env) (s : State) : list Event :=
  preCreate_calls env
  ++ [E_createRenderingTarget (windowSize s) (windowPosition s)]
  ++ postCreate_head (createRenderingTarget_result env).

(** The state in which the frame loop is reached when the set-up succeeds. *)
Definition ready (env : Env) (s : State) : State :=
  add_trace (opening_calls env s ++ postCreate_tail env ++ initGl_calls)
    (targeted env s).

(** The matrices [renderStringAt] puts on the two stacks. *)
Definition overlay_modelview (s : State) : MatrixStack :=
  identity (push (modelview s)).

Definition overlay_projection (s : State) : MatrixStack :=
  set_top (m_ortho (f_neg (f_lit 1 1)) (f_lit 1 1)
                   (f_neg (windowAspectInverse s)) (windowAspectInverse s)
                   (f_neg (f_lit 100 1)) (f_lit 100 1))
          (push (projection s)).

Definition overlay_cursor (s : State) (pos : vec2) : vec2 :=
  (fst pos, f_mul (windowAspectInverse s) (snd pos)).

(** A text renderer that fails and leaves the stacks as it found them. *)
Definition failing_renderString
  (str : string) (cursor : vec2) (size : float)
  (stacks : MatrixStack * MatrixStack) : (MatrixStack * MatrixStack) * option exn :=
  (stacks, Some (runtime_error "no font")).

(** No window can be created; everything else as in [plain_env]. *)
Definition no_window_env : Env :=
  with_window None (plain_env no_events clock_16ms).

(** What [run] reports when no window could be created. *)
Definition creation_failure_report (env : Env) : list Event :=
  if 0 =? glewInit_result env
  then postCreate_tail env ++ [E_SAY "Unable to create OpenGL window"]
  else [E_SAY "Failed to initialize GLEW"].

(** The frame counter [run] leaves behind when it returns. *)
Definition run_frames (env : Env) (fuel : nat) : option Z :=
  match run env fuel (created (640, 480) (0, 0)) with
  | Done _ s' =>
      match getFrame s' with
      | Done f _ => Some f
      | _ => None
      end
  | _ => None
  end.

(** An [update] that fails with a runtime_error in the second frame. *)
Definition raise_at_frame_2 (f : Z) : option exn :=
  if f =? 2 then Some (runtime_error "update failed") else None.

(** An [update] that fails with an exception of another kind in the second
    frame. *)
Definition crash_at_frame_2 (f : Z) : option exn :=
  if f =? 2 then Some (other_exception "bad_alloc") else None.

(** Everything as in [plain_env], but the text renderer fails. *)
Definition no_font_env : Env :=
  with_renderString failing_renderString (plain_env no_events clock_16ms).

(** ** More ways to read a trace *)

Definition is_poll (e : Event) : bool :=
  match e with E_glfwPollEvents => true | _ => false end.

Definition is_update (e : Event) : bool :=
  match e with E_update => true | _ => false end.

Definition is_draw (e : Event) : bool :=
  match e with E_draw => true | _ => false end.

Definition is_swap (e : Event) : bool :=
  match e with E_glfwSwapBuffers _ => true | _ => false end.

Definition is_gl_call (e : Event) : bool :=
  match e with E_oglplus _ => true | _ => false end.

Definition is_debug_registration (e : Event) : bool :=
  match e with
  | E_glDebugMessageCallback | E_glDebugMessageControl
  | E_glDebugMessageCallbackARB | E_glDebugMessageControlARB => true
  | _ => false
  end.

(** A call of one of the six input handlers. *)
Definition is_handler_call (e : Event) : bool :=
  match e with
  | E_onKey _ _ _ _ | E_onMouseButton _ _ _ | E_onMouseEnter _
  | E_onMouseMove _ _ | E_onCharacter _ | E_onScroll _ _ => true
  | _ => false
  end.

(** The handler a native event is routed to by the trampoline registered
    for it in [postCreate]; a close request has none. *)
Definition handler_call (ev : InputEvent) : list Event :=
  match ev with
  | KeyEvent key scancode action mods => [E_onKey key scancode action mods]
  | MouseButtonEvent button action mods => [E_onMouseButton button action mods]
  | CursorEnterEvent entered => [E_onMouseEnter entered]
  | CursorPosEvent x y => [E_onMouseMove x y]
  | CharEvent codepoint => [E_onCharacter codepoint]
  | ScrollEvent x y => [E_onScroll x y]
  | WindowCloseEvent => []
  end.

(** The batches of native events of [n] polls in a row, from poll [first]. *)
Definition batches (env : Env) (first n : nat) : list InputEvent :=
  flat_map (pending env) (seq first n).

(** The GL calls of [initGl] in their order. *)
Definition initGl_sequence : list GlCall :=
  [BindDrawFramebuffer; BindReadFramebuffer; EnableCullFace; EnableDepthTest;
   DisableDither].

(** The calls [initGl] gets to make and how it ends: it stops at the first
    call that raises (see [initGl_outcome_eq]). *)
Fixpoint gl_calls_until_raise (env : Env) (cs : list GlCall)
  : list Event * option exn :=
  match cs with
  | [] => ([], None)
  | c :: rest =>
      match oglplus_result env c with
      | Some e => ([E_oglplus c], Some e)
      | None =>
          (E_oglplus c :: fst (gl_calls_until_raise env rest),
           snd (gl_calls_until_raise env rest))
      end
  end.

(** The state [run] is in when it reaches [initGl]: a window and GLEW. *)
Definition contexted (env : Env) (s : State) : State :=
  add_trace (opening_calls env s ++ postCreate_tail env) (targeted env s).

(** ** Construction and destruction

    The constructor, the destructor and [destroyWindow] make calls that [run]
    never makes; they are recorded in a list of their own, next to the state
    they read. *)

Module Lifetime.

Inductive Call : Type :=
| C_glfwInit
| C_glfwSetErrorCallback
| C_glfwSetKeyCallback_nullptr (w : option GLFWwindow)
| C_glfwDestroyWindow (w : option GLFWwindow)
| C_glfwTerminate.

(** [static void ErrorCallback(int error, const char* description)]. *)
Definition ErrorCallback (error : Z) (description : string) : M unit :=
  FAIL description.

(** [GlfwApp::GlfwApp()]: the calls made and, when [glfwInit()] reports a
    failure, the exception that leaves the constructor. *)
Definition constructor (glfwInit_ok : bool) : list Call * option exn :=
  if negb glfwInit_ok
  then ([C_glfwInit], Some (runtime_error "Failed to initialize GLFW"))
  else ([C_glfwInit; C_glfwSetErrorCallback], None).

(** [GlfwApp::~GlfwApp()]. *)
Definition destructor (s : State) : list Call :=
  [C_glfwDestroyWindow (window s); C_glfwTerminate].

(** [GlfwApp::destroyWindow()]: the members are left as they are. *)
Definition destroyWindow (s : State) : State * list Call :=
  (s, [C_glfwSetKeyCallback_nullptr (window s); C_glfwDestroyWindow (window s)]).

End Lifetime.

Definition b2n (b : bool) : nat := if b then 1%nat else O.

(** ** What the frame loop leaves of a state *)

Definition in_int_range (x : Z) : Prop := - 2 ^ 31 <= x <= INT_MAX.

(** An [int] that held [x] after [k] times [++]. *)
Definition counted (x : Z) (k : nat) : Z :=
  match k with
  | O => x
  | S _ => wrap 32 (x + Z.of_nat k)
  end.

(** An event made while a native event is dispatched. *)
Definition is_dispatch_event (e : Event) : bool :=
  is_handler_call e
  || match e with
     | E_glfwSetWindowShouldClose _ _ | E_screenshot => true
     | _ => false
     end.

(** The two states a pass that runs to its end can leave. *)
Definition pass_end (env : Env) (s s' : State) : Prop :=
  s' = presented env s \/
  exists f, s' = log (E_SAY_FPS f) (set_fps f (presented env s)).

(** [s'] is [s] after [k] passes of the loop that ran to their end. *)
Record after_passes (env : Env) (k : nat) (s s' : State) : Prop := {
  ap_poll : calls is_poll (trace s') = (calls is_poll (trace s) + k)%nat;
  ap_update : calls is_update (trace s') = (calls is_update (trace s) + k)%nat;
  ap_draw : calls is_draw (trace s') = (calls is_draw (trace s) + k)%nat;
  ap_swap : calls is_swap (trace s') = (calls is_swap (trace s) + k)%nat;
  ap_shutdown : calls is_shutdown (trace s') = calls is_shutdown (trace s);
  ap_handlers :
    filter is_handler_call (trace s')
    = filter is_handler_call (trace s)
      ++ flat_map handler_call (batches env (polls s) k);
  ap_screenshots :
    calls is_screenshot (trace s')
    = (calls is_screenshot (trace s)
       + List.length (filter is_capture_press (batches env (polls s) k)))%nat;
  ap_flag :
    shouldClose s'
    = shouldClose s || existsb raises_flag (batches env (polls s) k);
  ap_heads :
    k = O \/
    shouldClose s || existsb raises_flag (batches env (polls s) (pred k)) = false;
  ap_queue : polls s' = (polls s + k)%nat;
  ap_ticks : ticks s' = (ticks s + k)%nat;
  ap_frame : frame s' = counted (frame s) k;
  ap_window : window s' = window s;
  ap_size : windowSize s' = windowSize s;
  ap_position : windowPosition s' = windowPosition s;
  ap_aspect : windowAspect s' = windowAspect s;
  ap_inverse : windowAspectInverse s' = windowAspectInverse s;
  ap_modelview : modelview s' = modelview s;
  ap_projection : projection s' = projection s
}.

(** [s'] is [s] after [k] passes that ran to their end and one more that
    was left by an exception, from [update] ([drawn = false]) or from
    [draw] ([drawn = true]). *)
Record after_cut_pass (env : Env) (k : nat) (drawn : bool) (s s' : State)
  : Prop := {
  cp_poll : calls is_poll (trace s') = (calls is_poll (trace s) + S k)%nat;
  cp_update : calls is_update (trace s') = (calls is_update (trace s) + S k)%nat;
  cp_draw :
    calls is_draw (trace s')
    = (calls is_draw (trace s) + (if drawn then S k else k))%nat;
  cp_swap : calls is_swap (trace s') = (calls is_swap (trace s) + k)%nat;
  cp_shutdown : calls is_shutdown (trace s') = calls is_shutdown (trace s);
  cp_handlers :
    filter is_handler_call (trace s')
    = filter is_handler_call (trace s)
      ++ flat_map handler_call (batches env (polls s) (S k));
  cp_screenshots :
    calls is_screenshot (trace s')
    = (calls is_screenshot (trace s)
       + List.length (filter is_capture_press (batches env (polls s) (S k))))%nat;
  cp_frame : frame s' = counted (frame s) (S k);
  cp_window : window s' = window s;
  cp_size : windowSize s' = windowSize s;
  cp_position : windowPosition s' = windowPosition s;
  cp_modelview : modelview s' = modelview s;
  cp_projection : projection s' = projection s
}.

(** How the frame loop can end, or not end, within [most] passes. *)
Definition loop_summary (env : Env) (most : nat) (s : State) (o : outcome unit)
  : Prop :=
  match o with
  | Done _ s' =>
      exists k, after_passes env k s s' /\ shouldClose s' = true /\ (k <= most)%nat
  | Running s' =>
      exists k, after_passes env k s s' /\ shouldClose s' = false /\ k = most
  | Raised e s' =>
      exists k drawn, after_cut_pass env k drawn s s' /\ (S k <= most)%nat
  end.

(** The state after [long start = Platform::elapsedMillis()]. *)
Definition clocked (env : Env) (s : State) : State :=
  log (E_elapsedMillis (clock env (ticks s))) (set_ticks (S (ticks s)) s).

Definition is_say_message (e : Event) : bool :=
  match e with E_SAY _ => true | _ => false end.

Definition with_glew (r : Z) (env : Env) : Env :=
  {| on_mac := on_mac env; debug_build := debug_build env;
     createRenderingTarget_result := createRenderingTarget_result env;
     glewInit_result := r;
     has_glDebugMessageCallback := has_glDebugMessageCallback env;
     has_glDebugMessageCallbackARB := has_glDebugMessageCallbackARB env;
     oglplus_result := oglplus_result env;
     update_hook := update_hook env;
     draw_hook := draw_hook env;
     pending := pending env;
     clock := clock env;
     renderString_effect := renderString_effect env;
     caller_catches := caller_catches env |}.

Definition with_oglplus (r : GlCall -> option exn) (env : Env) : Env :=
  {| on_mac := on_mac env; debug_build := debug_build env;
     createRenderingTarget_result := createRenderingTarget_result env;
     glewInit_result := glewInit_result env;
     has_glDebugMessageCallback := has_glDebugMessageCallback env;
     has_glDebugMessageCallbackARB := has_glDebugMessageCallbackARB env;
     oglplus_result := r;
     update_hook := update_hook env;
     draw_hook := draw_hook env;
     pending := pending env;
     clock := clock env;
     renderString_effect := renderString_effect env;
     caller_catches := caller_catches env |}.

Definition with_caller (catches : bool) (env : Env) : Env :=
  {| on_mac := on_mac env; debug_build := debug_build env;
     createRenderingTarget_result := createRenderingTarget_result env;
     glewInit_result := glewInit_result env;
     has_glDebugMessageCallback := has_glDebugMessageCallback env;
     has_glDebugMessageCallbackARB := has_glDebugMessageCallbackARB env;
     oglplus_result := oglplus_result env;
     update_hook := update_hook env;
     draw_hook := draw_hook env;
     pending := pending env;
     clock := clock env;
     renderString_effect := renderString_effect env;
     caller_catches := catches |}.

(** The third GL call of [initGl] fails. *)
Definition cull_face_fails (c : GlCall) : option exn :=
  match c with
  | EnableCullFace => Some (runtime_error "GL error")
  | _ => None
  end.

(** * Properties *)

(** ** Plumbing *)

(** A state as its thirteen components. *)
Ltac open_state s :=
  destruct s as [sw ssize spos sasp sinv sframe sfps sclose spolls sticks
                 smv spr strace].

(** Runs the monad and the setters on an opened state, arguments first. *)
Ltac run_state :=
  cbv [bind ret modify gets emit throw may_raise FAIL
       log add_trace set_window set_aspect set_frame set_fps set_shouldClose
       set_polls set_ticks set_stacks
       window windowSize windowPosition windowAspect windowAspectInverse
       frame fps shouldClose polls ticks modelview projection trace].

Lemma add_trace_add_trace a b s :
  add_trace b (add_trace a s) = add_trace (a ++ b) s.
Proof. unfold add_trace; simpl; rewrite app_assoc; reflexivity. Qed.

Lemma calls_app p a b : calls p (a ++ b) = (calls p a + calls p b)%nat.
Proof. unfold calls; rewrite filter_app, length_app; reflexivity. Qed.

(** ** The key handler *)

Section KeyHandler.

Variables (key scancode action mods : Z) (s : State).

Lemma onKey_not_press :
  action <> GLFW_PRESS -> onKey key scancode action mods s = Done tt s.
Proof.
  intros H; unfold onKey.
  destruct (Z.eqb_spec GLFW_PRESS action) as [E|E]; [congruence|reflexivity].
Qed.

Lemma onKey_escape :
  action = GLFW_PRESS -> key = GLFW_KEY_ESCAPE ->
  onKey key scancode action mods s =
    Done tt (set_shouldClose true (log (E_glfwSetWindowShouldClose (window s) 1) s)).
Proof. intros -> ->; reflexivity. Qed.

Lemma onKey_capture :
  action = GLFW_PRESS -> key = GLFW_KEY_S -> Z.land mods GLFW_MOD_SHIFT <> 0 ->
  onKey key scancode action mods s = Done tt (log E_screenshot s).
Proof.
  intros -> -> H; unfold onKey; simpl.
  destruct (Z.eqb_spec (Z.land mods GLFW_MOD_SHIFT) 0); [contradiction|reflexivity].
Qed.

Lemma onKey_S_without_shift :
  action = GLFW_PRESS -> key = GLFW_KEY_S -> Z.land mods GLFW_MOD_SHIFT = 0 ->
  onKey key scancode action mods s = Done tt s.
Proof. intros -> -> H; unfold onKey; simpl; rewrite H; reflexivity. Qed.

Lemma onKey_other_key :
  key <> GLFW_KEY_ESCAPE -> key <> GLFW_KEY_S ->
  onKey key scancode action mods s = Done tt s.
Proof.
  intros H1 H2; unfold onKey.
  destruct (negb (GLFW_PRESS =? action)); [reflexivity|].
  destruct (Z.eqb_spec key GLFW_KEY_ESCAPE); [contradiction|].
  destruct (Z.eqb_spec key GLFW_KEY_S); [contradiction|reflexivity].
Qed.

End KeyHandler.

Lemma emit_bind {A : Type} (e : Event) (k : M A) (s : State) :
  (emit e ;; k) s = k (log e s).
Proof. reflexivity. Qed.

Lemma is_escape_press_iff key scancode action mods :
  is_escape_press (KeyEvent key scancode action mods) = true <->
  action = GLFW_PRESS /\ key = GLFW_KEY_ESCAPE.
Proof.
  unfold is_escape_press; rewrite andb_true_iff, !Z.eqb_eq; reflexivity.
Qed.

Lemma is_capture_press_iff key scancode action mods :
  is_capture_press (KeyEvent key scancode action mods) = true <->
  action = GLFW_PRESS /\ key = GLFW_KEY_S /\ Z.land mods GLFW_MOD_SHIFT <> 0.
Proof.
  unfold is_capture_press.
  rewrite !andb_true_iff, negb_true_iff, !Z.eqb_eq, Z.eqb_neq; tauto.
Qed.

(** A key event that is neither of the two built-in ones is ignored. *)
Lemma onKey_ignored key scancode action mods s :
  is_escape_press (KeyEvent key scancode action mods) = false ->
  is_capture_press (KeyEvent key scancode action mods) = false ->
  onKey key scancode action mods s = Done tt s.
Proof.
  intros Hesc Hcap.
  destruct (Z.eq_dec action GLFW_PRESS) as [Ha|Ha];
    [|apply onKey_not_press; assumption].
  destruct (Z.eq_dec key GLFW_KEY_ESCAPE) as [Hk|Hk].
  { assert (is_escape_press (KeyEvent key scancode action mods) = true)
      by (apply is_escape_press_iff; auto).
    congruence. }
  destruct (Z.eq_dec key GLFW_KEY_S) as [Hs|Hs];
    [|apply onKey_other_key; assumption].
  destruct (Z.eq_dec (Z.land mods GLFW_MOD_SHIFT) 0) as [Hm|Hm];
    [apply onKey_S_without_shift; assumption|].
  assert (is_capture_press (KeyEvent key scancode action mods) = true)
    by (apply is_capture_press_iff; auto).
  congruence.
Qed.

(** What a native event does, in one equation. *)
Lemma deliver_eq ev s :
  deliver ev s =
    Done tt (set_shouldClose (shouldClose s || raises_flag ev)
               (add_trace (dispatch_calls (window s) ev) s)).
Proof.
  destruct ev; unfold raises_flag;
    try (destruct s; unfold add_trace, set_shouldClose; simpl;
         rewrite ?orb_false_r, ?orb_true_r, ?app_nil_r; reflexivity).
  unfold deliver, KeyCallback; rewrite emit_bind.
  unfold dispatch_calls, is_window_close; rewrite orb_false_r.
  destruct (is_escape_press _) eqn:Hesc.
  - apply is_escape_press_iff in Hesc; destruct Hesc as [-> ->].
    rewrite onKey_escape by reflexivity.
    destruct s; unfold log, add_trace, set_shouldClose; simpl.
    rewrite orb_true_r, <- app_assoc; reflexivity.
  - destruct (is_capture_press _) eqn:Hcap.
    + apply is_capture_press_iff in Hcap; destruct Hcap as (-> & -> & Hm).
      rewrite onKey_capture by auto.
      destruct s; unfold log, add_trace, set_shouldClose; simpl.
      rewrite orb_false_r, <- app_assoc; reflexivity.
    + rewrite onKey_ignored by assumption.
      destruct s; unfold log, add_trace, set_shouldClose; simpl.
      rewrite orb_false_r; reflexivity.
Qed.

Lemma deliver_all_eq evs : forall s,
  deliver_all evs s =
    Done tt (set_shouldClose (shouldClose s || existsb raises_flag evs)
               (add_trace (flat_map (dispatch_calls (window s)) evs) s)).
Proof.
  induction evs as [|ev evs IH]; intros s.
  - destruct s; unfold add_trace, set_shouldClose; simpl.
    rewrite orb_false_r, app_nil_r; reflexivity.
  - simpl deliver_all. unfold bind. rewrite deliver_eq, IH.
    destruct s; unfold add_trace, set_shouldClose; simpl.
    rewrite orb_assoc, <- app_assoc; reflexivity.
Qed.

Lemma glfwPollEvents_eq env s : glfwPollEvents env s = Done tt (polled env s).
Proof.
  unfold glfwPollEvents, bind, emit, gets, modify; simpl.
  rewrite deliver_all_eq.
  destruct s; unfold polled, log, add_trace, set_shouldClose, set_polls; simpl.
  rewrite <- app_assoc; reflexivity.
Qed.

(** ** One pass through the loop body *)

(** The flag is read, then at most one body; a loop entered with the flag
    raised does nothing. *)
Lemma frame_loop_closed env fuel framecount start s :
  shouldClose s = true -> frame_loop env fuel framecount start s = Done tt s.
Proof.
  intros H; destruct fuel; simpl;
    unfold bind, glfwWindowShouldClose, gets; rewrite H; reflexivity.
Qed.

Lemma frame_loop_open env fuel framecount start s :
  shouldClose s = false ->
  frame_loop env (S fuel) framecount start s =
    (locals <- loop_body env framecount start ;;
     frame_loop env fuel (fst locals) (snd locals)) s.
Proof.
  intros H; simpl; unfold bind at 1, glfwWindowShouldClose, gets.
  rewrite H; reflexivity.
Qed.

Lemma frame_loop_no_fuel env framecount start s :
  shouldClose s = false -> frame_loop env O framecount start s = Running s.
Proof.
  intros H; simpl; unfold bind, glfwWindowShouldClose, gets.
  rewrite H; reflexivity.
Qed.

Lemma loop_body_eq env framecount start s :
  loop_body env framecount start s =
    match update_hook env (int_incr (frame s)) with
    | Some e => Raised e (log E_update (entered env s))
    | None =>
        match draw_hook env (int_incr (frame s)) with
        | Some e => Raised e (add_trace [E_update; E_draw] (entered env s))
        | None =>
            let now := clock env (ticks s) in
            if 2000 <=? long_sub now start then
              Done (0, now)
                (log (E_SAY_FPS (new_fps framecount start now))
                   (set_fps (new_fps framecount start now) (presented env s)))
            else Done (int_incr framecount, start) (presented env s)
        end
    end.
Proof.
  unfold loop_body, bind at 1; rewrite glfwPollEvents_eq.
  unfold presented, entered, polled, new_fps.
  open_state s; cbv [update draw finishFrame on_window elapsedMillis]; run_state.
  destruct (update_hook env _) as [e|]; [reflexivity|].
  destruct (draw_hook env _) as [e|]; [rewrite <- !app_assoc; reflexivity|].
  destruct (2000 <=? _); rewrite <- !app_assoc; reflexivity.
Qed.

(** ** The set-up phase of [run] *)

Lemma preCreate_eq env s :
  preCreate env s = Done tt (add_trace (preCreate_calls env) s).
Proof.
  unfold preCreate, preCreate_calls, glfwWindowHint.
  open_state s; destruct (on_mac env), (debug_build env); run_state;
    rewrite <- !app_assoc; reflexivity.
Qed.

(** [postCreate] stops at [glewInit()] when GLEW reports a failure. *)
Lemma postCreate_eq env s :
  postCreate env s =
    let s1 :=
      add_trace (postCreate_head (window s))
        (set_aspect (f_aspect (fst (windowSize s)) (snd (windowSize s)))
           (f_div (f_lit 1 1) (f_aspect (fst (windowSize s)) (snd (windowSize s))))
           s) in
    if 0 =? glewInit_result env
    then Done tt (add_trace (postCreate_tail env) s1)
    else Raised (runtime_error "Failed to initialize GLEW") s1.
Proof.
  unfold postCreate, postCreate_head, postCreate_tail, on_window.
  open_state s.
  destruct (0 =? glewInit_result env); cbn [negb].
  - destruct (has_glDebugMessageCallback env);
      [|destruct (has_glDebugMessageCallbackARB env)];
      run_state; cbn [app]; rewrite <- !app_assoc; reflexivity.
  - run_state; rewrite <- !app_assoc; reflexivity.
Qed.

Lemma initGl_eq env s :
  (forall c, oglplus_result env c = None) ->
  initGl env s = Done tt (add_trace initGl_calls s).
Proof.
  intros H; unfold initGl, oglplus, initGl_calls.
  rewrite !H; open_state s; run_state; rewrite <- !app_assoc; reflexivity.
Qed.

(** [run] up to the test of the handle. *)
Lemma run_try_opening env fuel s :
  run_try env fuel s =
    (postCreate env ;;
     w <- gets window ;;
     (match w with
      | None => FAIL "Unable to create OpenGL window"
      | Some _ => ret tt
      end) ;;
     initGl env ;;
     Finally (unwound env) shutdownGl
       (start <- elapsedMillis env ;; frame_loop env fuel 0 start))
      (set_window (createRenderingTarget_result env)
         (add_trace (preCreate_calls env
                     ++ [E_createRenderingTarget (windowSize s) (windowPosition s)]) s)).
Proof.
  unfold run_try, bind at 1; rewrite preCreate_eq.
  unfold bind at 1, createRenderingTarget, log.
  rewrite add_trace_add_trace; reflexivity.
Qed.

(** No window: the failure is raised after [postCreate] ran on the null
    handle, and nothing of the rest of [run] is reached. *)
Lemma run_try_no_window env fuel s :
  createRenderingTarget_result env = None ->
  run_try env fuel s =
    if 0 =? glewInit_result env
    then Raised (runtime_error "Unable to create OpenGL window")
           (add_trace (opening_calls env s ++ postCreate_tail env) (targeted env s))
    else Raised (runtime_error "Failed to initialize GLEW")
           (add_trace (opening_calls env s) (targeted env s)).
Proof.
  intros Hw; rewrite run_try_opening.
  unfold bind at 1; rewrite postCreate_eq; cbv zeta.
  unfold opening_calls, targeted; rewrite Hw.
  destruct (0 =? glewInit_result env).
  - open_state s; run_state; rewrite <- !app_assoc; reflexivity.
  - open_state s; run_state; rewrite <- !app_assoc; reflexivity.
Qed.

(** A window, GLEW and the GL calls all fine: the guard is installed and the
    loop is reached in the state [ready]. *)
Lemma run_try_ready env fuel s w :
  createRenderingTarget_result env = Some w ->
  glewInit_result env = 0 ->
  (forall c, oglplus_result env c = None) ->
  run_try env fuel s =
    Finally (unwound env) shutdownGl
      (start <- elapsedMillis env ;; frame_loop env fuel 0 start)
      (ready env s).
Proof.
  intros Hw Hg Ho; rewrite run_try_opening.
  unfold bind at 1; rewrite postCreate_eq, Hg; cbv zeta.
  change (0 =? 0) with true; cbv iota.
  unfold bind at 1, gets.
  cbn [window set_window add_trace set_aspect]. rewrite Hw.
  unfold bind at 1, ret. unfold bind at 1. rewrite initGl_eq by assumption.
  f_equal. unfold ready, opening_calls, targeted. rewrite Hw.
  open_state s; run_state; cbn [fst snd]; rewrite <- !app_assoc; reflexivity.
Qed.

Lemma run_eq env fuel s :
  run env fuel s =
    match run_try env fuel s with
    | Done _ s' => Done 0 s'
    | Raised (runtime_error what) s' => Done 0 (log (E_SAY what) s')
    | Raised (other_exception what) s' => Raised (other_exception what) s'
    | Running s' => Running s'
    end.
Proof.
  unfold run, bind, try_catch_runtime_error, emit, ret.
  destruct (run_try env fuel s) as [[] s'|[what|what] s'|s']; reflexivity.
Qed.

Lemma run_no_window env fuel s :
  createRenderingTarget_result env = None ->
  run env fuel s =
    Done 0 (add_trace (opening_calls env s ++ creation_failure_report env)
              (targeted env s)).
Proof.
  intros Hw; rewrite run_eq, run_try_no_window by assumption.
  unfold creation_failure_report.
  destruct (0 =? glewInit_result env); unfold log;
    rewrite add_trace_add_trace, <- ?app_assoc; reflexivity.
Qed.

Lemma calls_preCreate p env :
  (forall h v, p (E_glfwWindowHint h v) = false) ->
  calls p (preCreate_calls env) = O.
Proof.
  intros H; unfold preCreate_calls.
  destruct (on_mac env), (debug_build env); unfold calls; simpl;
    rewrite !H; reflexivity.
Qed.

Lemma calls_postCreate_tail_shutdown env :
  calls is_shutdown (postCreate_tail env) = O.
Proof.
  unfold postCreate_tail.
  destruct (has_glDebugMessageCallback env), (has_glDebugMessageCallbackARB env);
    reflexivity.
Qed.

Lemma calls_postCreate_tail_loop env :
  calls is_loop_call (postCreate_tail env) = O.
Proof.
  unfold postCreate_tail.
  destruct (has_glDebugMessageCallback env), (has_glDebugMessageCallbackARB env);
    reflexivity.
Qed.

(** ** Window creation fails *)

(** C1, as amended: when createRenderingTarget hands back the null handle,
    run() returns 0 without calling shutdownGl (the guard that calls it is
    installed only after initGl) and without entering the frame loop: no
    poll, update, draw or finishFrame call is made. *)
Theorem run_creation_failure_skips_loop_and_shutdown :
  forall env fuel s,
    createRenderingTarget_result env = None ->
    exists s',
      run env fuel s = Done 0 s' /\
      calls is_shutdown (trace s') = calls is_shutdown (trace s) /\
      calls is_loop_call (trace s') = calls is_loop_call (trace s).
Proof.
  intros env fuel s Hw; eexists; split; [apply run_no_window; assumption|].
  cbn [trace add_trace]; unfold opening_calls, creation_failure_report.
  rewrite Hw.
  split; rewrite !calls_app, calls_preCreate by reflexivity;
    (destruct (0 =? glewInit_result env);
     rewrite ?calls_app, ?calls_postCreate_tail_shutdown,
       ?calls_postCreate_tail_loop; unfold calls; cbn; lia).
Qed.

Lemma run_creation_failure_witness :
  exists s',
    run no_window_env 7 (created (640, 480) (0, 0)) = Done 0 s' /\
    calls is_shutdown (trace s') = O /\
    calls is_loop_call (trace s') = O.
Proof.
  apply (run_creation_failure_skips_loop_and_shutdown
           no_window_env 7 (created (640, 480) (0, 0))).
  reflexivity.
Defined.

(** C1 as stated fails: with a null handle the shutdown routine is not
    called once, it is not called at all. *)
Lemma run_creation_failure_shutdown_once_cex :
  ~ (createRenderingTarget_result no_window_env = None ->
     calls is_shutdown
       (trace (final (run no_window_env 7 (created (640, 480) (0, 0))))) = 1%nat).
Proof.
  intros H; specialize (H eq_refl); vm_compute in H; discriminate.
Qed.

(** C9: run() calls postCreate before it tests the handle.  With a null
    handle the calls of postCreate (make-current, user pointer, the six
    callback registrations, swap interval, GLEW) are made on that null handle,
    and the failure is reported only after them. *)
Theorem postCreate_runs_on_null_window :
  forall env fuel s,
    createRenderingTarget_result env = None ->
    exists s',
      run env fuel s = Done 0 s' /\
      window s' = None /\
      trace s' =
        trace s
        ++ preCreate_calls env
        ++ [E_createRenderingTarget (windowSize s) (windowPosition s)]
        ++ postCreate_head None
        ++ (if 0 =? glewInit_result env
            then postCreate_tail env ++ [E_SAY "Unable to create OpenGL window"]
            else [E_SAY "Failed to initialize GLEW"]).
Proof.
  intros env fuel s Hw; eexists; split; [apply run_no_window; assumption|].
  split; [exact Hw|].
  cbn [trace add_trace]; unfold opening_calls, creation_failure_report.
  rewrite Hw, <- !app_assoc; reflexivity.
Qed.

Lemma postCreate_runs_on_null_window_witness :
  exists s',
    run no_window_env 7 (created (640, 480) (0, 0)) = Done 0 s' /\
    window s' = None /\
    trace s' =
      [E_glfwWindowHint GLFW_DEPTH_BITS (hint_int 16);
       E_glfwWindowHint GLFW_CONTEXT_VERSION_MAJOR (hint_int 3);
       E_glfwWindowHint GLFW_CONTEXT_VERSION_MINOR (hint_int 3);
       E_glfwWindowHint GLFW_OPENGL_PROFILE GLFW_OPENGL_CORE_PROFILE;
       E_createRenderingTarget (640, 480) (0, 0);
       E_glfwMakeContextCurrent None; E_glfwSetWindowUserPointer None;
       E_glfwSetKeyCallback None; E_glfwSetMouseButtonCallback None;
       E_glfwSetCursorPosCallback None; E_glfwSetCursorEnterCallback None;
       E_glfwSetCharCallback None; E_glfwSetScrollCallback None;
       E_glfwSwapInterval 1; E_glewInit;
       E_glGetError; E_glEnable_DEBUG_OUTPUT_SYNCHRONOUS;
       E_glDebugMessageCallback; E_glDebugMessageControl;
       E_SAY "Unable to create OpenGL window"].
Proof.
  apply (postCreate_runs_on_null_window
           no_window_env 7 (created (640, 480) (0, 0))).
  reflexivity.
Defined.

(** ** The default key handler *)

Lemma escape_is_not_capture ev :
  is_escape_press ev = true -> is_capture_press ev = false.
Proof.
  destruct ev as [key scancode action mods| | | | | |]; try discriminate.
  intros H; apply is_escape_press_iff in H; destruct H as [-> ->]; reflexivity.
Qed.

Lemma screenshots_of_dispatch w ev :
  calls is_screenshot (dispatch_calls w ev) = if is_capture_press ev then 1%nat else O.
Proof.
  destruct ev as [key scancode action mods| | | | | |]; try reflexivity.
  unfold dispatch_calls.
  destruct (is_escape_press _) eqn:Hesc.
  - rewrite (escape_is_not_capture _ Hesc); reflexivity.
  - destruct (is_capture_press _); reflexivity.
Qed.

Lemma screenshots_of_dispatch_all w evs :
  calls is_screenshot (flat_map (dispatch_calls w) evs)
  = List.length (filter is_capture_press evs).
Proof.
  induction evs as [|ev evs IH]; [reflexivity|].
  cbn [flat_map filter]; rewrite calls_app, screenshots_of_dispatch, IH.
  destruct (is_capture_press ev); reflexivity.
Qed.

Lemma plain_keys_raise_nothing evs :
  Forall plain_key evs -> existsb raises_flag evs = false.
Proof.
  induction 1 as [|ev evs (Hk & Hesc & Hcap) _ IH]; [reflexivity|].
  cbn [existsb]; rewrite IH, orb_false_r.
  unfold raises_flag; rewrite Hesc.
  destruct ev; solve [discriminate Hk | reflexivity].
Qed.

Lemma plain_keys_capture_nothing evs :
  Forall plain_key evs -> filter is_capture_press evs = [].
Proof.
  induction 1 as [|ev evs (Hk & Hesc & Hcap) _ IH]; [reflexivity|].
  cbn [filter]; rewrite Hcap; assumption.
Qed.

Lemma escape_raises_flag evs :
  existsb is_escape_press evs = true -> existsb raises_flag evs = true.
Proof.
  induction evs as [|ev evs IH]; [discriminate|].
  cbn [existsb]; unfold raises_flag at 1.
  destruct (is_escape_press ev); [reflexivity|].
  cbn [orb]; intros H; rewrite (IH H); apply orb_true_r.
Qed.

Lemma calls_cons p e t :
  calls p (e :: t) = ((if p e then 1 else 0) + calls p t)%nat.
Proof. unfold calls; cbn [filter]; destruct (p e); reflexivity. Qed.

Lemma no_hook_calls_in_dispatch w evs :
  calls is_update_or_draw (flat_map (dispatch_calls w) evs) = O.
Proof.
  induction evs as [|ev evs IH]; [reflexivity|].
  cbn [flat_map]; rewrite calls_app, IH.
  destruct ev as [k sc a m| | | | | |]; try reflexivity.
  unfold dispatch_calls.
  destruct (is_escape_press _); [reflexivity|].
  destruct (is_capture_press _); reflexivity.
Qed.

(** A completed pass calls [update] once and [draw] once. *)
Lemma presented_update_draw env s :
  calls is_update_or_draw (trace (presented env s))
  = (calls is_update_or_draw (trace s) + 2)%nat.
Proof.
  cbn [presented entered polled trace add_trace set_ticks set_frame
         set_shouldClose set_polls].
  rewrite !calls_app, calls_cons, no_hook_calls_in_dispatch.
  cbn; lia.
Qed.

(** C4: the default onKey raises the close flag exactly on a press of the
    escape key, whatever the modifiers; a sequence of key events with no
    escape press and no capture combination leaves the flag down and calls
    no screenshot; a loop reached with the flag up runs no pass at all; and
    the pass in which escape went down is the last one: it still finishes
    (the flag is only read at the head of the loop), then the loop is left. *)
Theorem onKey_close_flag :
  (forall key scancode action mods s,
      shouldClose s = false ->
      exists s',
        onKey key scancode action mods s = Done tt s' /\
        (shouldClose s' = true <-> action = GLFW_PRESS /\ key = GLFW_KEY_ESCAPE)) /\
  (forall evs s,
      Forall plain_key evs ->
      shouldClose s = false ->
      exists s',
        deliver_all evs s = Done tt s' /\
        shouldClose s' = false /\
        calls is_screenshot (trace s') = calls is_screenshot (trace s)) /\
  (forall env fuel framecount start s,
      shouldClose s = true ->
      frame_loop env fuel framecount start s = Done tt s) /\
  (forall env fuel framecount start s,
      shouldClose s = false ->
      existsb is_escape_press (pending env (polls s)) = true ->
      update_hook env (int_incr (frame s)) = None ->
      draw_hook env (int_incr (frame s)) = None ->
      exists locals s',
        loop_body env framecount start s = Done locals s' /\
        frame_loop env (S fuel) framecount start s = Done tt s' /\
        calls is_update_or_draw (trace s') = (calls is_update_or_draw (trace s) + 2)%nat).
Proof.
  split; [|split; [|split]].
  - intros key scancode action mods s Hs.
    destruct (is_escape_press (KeyEvent key scancode action mods)) eqn:Hesc.
    + pose proof Hesc as H; apply is_escape_press_iff in H; destruct H as [Ha Hk].
      rewrite onKey_escape by assumption.
      eexists; split; [reflexivity|]. cbn; tauto.
    + destruct (is_capture_press (KeyEvent key scancode action mods)) eqn:Hcap.
      * apply is_capture_press_iff in Hcap; destruct Hcap as (Ha & Hk & Hm).
        rewrite onKey_capture by assumption.
        eexists; split; [reflexivity|]. cbn. rewrite Hs, Hk.
        split; [discriminate|]. intros [_ H]; discriminate H.
      * rewrite onKey_ignored by assumption.
        eexists; split; [reflexivity|]. rewrite Hs.
        split; [discriminate|]. intros H.
        apply (proj2 (is_escape_press_iff key scancode action mods)) in H.
        congruence.
  - intros evs s Hevs Hs; rewrite deliver_all_eq.
    eexists; split; [reflexivity|].
    cbn [shouldClose trace set_shouldClose add_trace].
    rewrite Hs, plain_keys_raise_nothing by assumption.
    split; [reflexivity|].
    rewrite calls_app, screenshots_of_dispatch_all,
      plain_keys_capture_nothing by assumption.
    cbn [List.length]; lia.
  - intros; apply frame_loop_closed; assumption.
  - intros env fuel framecount start s Hs Hesc Hu Hd.
    pose proof (loop_body_eq env framecount start s) as Hbody.
    rewrite Hu, Hd in Hbody; cbv zeta in Hbody.
    assert (Hup : shouldClose (presented env s) = true).
    { cbn. rewrite (escape_raises_flag _ Hesc). apply orb_true_r. }
    pose proof (presented_update_draw env s) as Hcalls.
    rewrite frame_loop_open by assumption.
    unfold bind; rewrite Hbody.
    destruct (2000 <=? long_sub (clock env (ticks s)) start).
    + eexists; eexists; split; [reflexivity|].
      split; [apply frame_loop_closed; exact Hup|].
      cbn [trace log add_trace set_fps]. rewrite calls_app, Hcalls. cbn; lia.
    + eexists; eexists; split; [reflexivity|].
      split; [apply frame_loop_closed; exact Hup|exact Hcalls].
Qed.

Lemma onKey_close_flag_witness :
  (exists s',
      onKey GLFW_KEY_ESCAPE 9 GLFW_PRESS 0 (created (640, 480) (0, 0)) = Done tt s' /\
      (shouldClose s' = true <->
       GLFW_PRESS = GLFW_PRESS /\ GLFW_KEY_ESCAPE = GLFW_KEY_ESCAPE)) /\
  (exists s',
      deliver_all [KeyEvent GLFW_KEY_S 39 GLFW_PRESS 0;
                   KeyEvent GLFW_KEY_ESCAPE 9 GLFW_RELEASE 0;
                   KeyEvent 65 38 GLFW_PRESS GLFW_MOD_SHIFT]
        (created (640, 480) (0, 0)) = Done tt s' /\
      shouldClose s' = false /\
      calls is_screenshot (trace s') = O) /\
  (exists locals s',
      loop_body (plain_env (escape_at 0) clock_16ms) 0 0
        (ready (plain_env (escape_at 0) clock_16ms) (created (640, 480) (0, 0)))
      = Done locals s' /\
      frame_loop (plain_env (escape_at 0) clock_16ms) 5 0 0
        (ready (plain_env (escape_at 0) clock_16ms) (created (640, 480) (0, 0)))
      = Done tt s' /\
      calls is_update_or_draw (trace s') = 2%nat).
Proof.
  destruct onKey_close_flag as (Hkey & Hseq & _ & Hlast).
  split; [|split].
  - apply Hkey; reflexivity.
  - apply Hseq; [|reflexivity].
    repeat constructor.
  - apply (Hlast (plain_env (escape_at 0) clock_16ms) 4%nat); reflexivity.
Defined.

(** C5: the default onKey calls screenshot once when S goes down with shift
    held and not otherwise: not on a release or a repeat, not for another
    key, not for S without shift.  Over any batch of native events the
    number of screenshot calls is the number of such presses. *)
Theorem onKey_capture_once_per_press :
  (forall key scancode action mods s,
      exists s',
        onKey key scancode action mods s = Done tt s' /\
        (action = GLFW_PRESS /\ key = GLFW_KEY_S /\ Z.land mods GLFW_MOD_SHIFT <> 0 ->
         trace s' = trace s ++ [E_screenshot]) /\
        (action <> GLFW_PRESS \/ key <> GLFW_KEY_S \/ Z.land mods GLFW_MOD_SHIFT = 0 ->
         calls is_screenshot (trace s') = calls is_screenshot (trace s))) /\
  (forall evs s,
      exists s',
        deliver_all evs s = Done tt s' /\
        calls is_screenshot (trace s')
        = (calls is_screenshot (trace s) + List.length (filter is_capture_press evs))%nat).
Proof.
  split.
  - intros key scancode action mods s.
    destruct (is_capture_press (KeyEvent key scancode action mods)) eqn:Hcap.
    + apply is_capture_press_iff in Hcap; destruct Hcap as (Ha & Hk & Hm).
      rewrite onKey_capture by assumption.
      eexists; split; [reflexivity|]; split; [reflexivity|].
      intros [H|[H|H]]; contradiction.
    + assert (Hnot : ~ (action = GLFW_PRESS /\ key = GLFW_KEY_S
                        /\ Z.land mods GLFW_MOD_SHIFT <> 0)).
      { intros H.
        apply (proj2 (is_capture_press_iff key scancode action mods)) in H.
        congruence. }
      destruct (is_escape_press (KeyEvent key scancode action mods)) eqn:Hesc.
      * apply is_escape_press_iff in Hesc; destruct Hesc as [Ha Hk].
        rewrite onKey_escape by assumption.
        eexists; split; [reflexivity|]; split; [tauto|].
        intros _; cbn [trace set_shouldClose log add_trace].
        rewrite calls_app; cbn; lia.
      * rewrite onKey_ignored by assumption.
        eexists; split; [reflexivity|]; split; [tauto|reflexivity].
  - intros evs s; rewrite deliver_all_eq.
    eexists; split; [reflexivity|].
    cbn [trace set_shouldClose add_trace].
    rewrite calls_app, screenshots_of_dispatch_all; reflexivity.
Qed.

Example onKey_repeat_with_shift_is_ignored :
  forall s, onKey GLFW_KEY_S 39 GLFW_REPEAT GLFW_MOD_SHIFT s = Done tt s.
Proof. intros s; apply onKey_not_press; discriminate. Qed.

Example onKey_release_with_shift_is_ignored :
  forall s, onKey GLFW_KEY_S 39 GLFW_RELEASE GLFW_MOD_SHIFT s = Done tt s.
Proof. intros s; apply onKey_not_press; discriminate. Qed.

Example onKey_shift_control_S_captures :
  forall s, onKey GLFW_KEY_S 39 GLFW_PRESS 3 s = Done tt (log E_screenshot s).
Proof. intros s; apply onKey_capture; [reflexivity|reflexivity|discriminate]. Qed.

(** ** One pass through the frame loop *)




(** ** The frame counter *)

Lemma int_incr_in_range x : - 2 ^ 31 <= x + 1 <= INT_MAX -> int_incr x = x + 1.
Proof.
  unfold int_incr, wrap, INT_MAX; intros H.
  rewrite Z.mod_small; lia.
Qed.

(** A pass that runs to its end moves the counter by one [++frame]. *)
Lemma loop_body_frame env framecount start s locals s' :
  loop_body env framecount start s = Done locals s' ->
  frame s' = int_incr (frame s).
Proof.
  rewrite loop_body_eq.
  destruct (update_hook env _); [discriminate|].
  destruct (draw_hook env _); [discriminate|]; cbv zeta.
  destruct (2000 <=? _); intros H; injection H as _ <-; reflexivity.
Qed.

(** [iterate] is the loop: its passes are the first passes of [frame_loop]. *)
Lemma frame_loop_iterate env n : forall framecount start s framecount' start' s' fuel,
  iterate env n framecount start s = Some (framecount', start', s') ->
  frame_loop env (n + fuel) framecount start s
  = frame_loop env fuel framecount' start' s'.
Proof.
  induction n as [|n IH]; intros framecount start s framecount' start' s' fuel H.
  - injection H as -> -> ->; reflexivity.
  - cbn [iterate] in H.
    destruct (shouldClose s) eqn:Hs; [discriminate|].
    cbn [Nat.add]; rewrite frame_loop_open by assumption.
    unfold bind.
    destruct (loop_body env framecount start s) as [locals s1|e s1|s1];
      try discriminate.
    apply IH; assumption.
Qed.

Lemma iterate_frame env n : forall framecount start s framecount' start' s',
  iterate env n framecount start s = Some (framecount', start', s') ->
  0 <= frame s ->
  frame s + Z.of_nat n <= INT_MAX ->
  frame s' = frame s + Z.of_nat n.
Proof.
  induction n as [|n IH]; intros framecount start s framecount' start' s' H H0 Hmax.
  - injection H as _ _ <-; cbn; lia.
  - cbn [iterate] in H.
    destruct (shouldClose s); [discriminate|].
    destruct (loop_body env framecount start s) as [locals s1|e s1|s1] eqn:Hbody;
      try discriminate.
    apply loop_body_frame in Hbody.
    rewrite int_incr_in_range in Hbody by (unfold INT_MAX in *; lia).
    rewrite (IH _ _ _ _ _ _ H); lia.
Qed.

Lemma frame_ready env s : frame (ready env s) = frame s.
Proof. reflexivity. Qed.

(** C6: the counter of a new object is 0 and the set-up of run() leaves it
    alone; every pass of the loop that runs to its end adds one to it; so
    after N completed passes getFrame() returns the initial value plus N
    (N itself for the object run() started with), as long as that fits an
    int; the counter never went down on the way; and getFrame() changes
    nothing. *)
Theorem getFrame_counts_completed_passes :
  forall env n framecount start s framecount' start' s',
    iterate env n framecount start s = Some (framecount', start', s') ->
    0 <= frame s ->
    frame s + Z.of_nat n <= INT_MAX ->
    getFrame s' = Done (frame s + Z.of_nat n) s' /\
    frame s <= frame s' /\
    (forall size pos, s = ready env (created size pos) ->
                      getFrame s' = Done (Z.of_nat n) s').
Proof.
  intros env n framecount start s framecount' start' s' H H0 Hmax.
  pose proof (iterate_frame _ _ _ _ _ _ _ _ H H0 Hmax) as Hf.
  unfold getFrame, gets; rewrite Hf.
  split; [reflexivity|]; split; [lia|].
  intros size pos ->; rewrite frame_ready; reflexivity.
Qed.

Lemma getFrame_counts_completed_passes_witness :
  exists locals s',
    iterate (plain_env no_events clock_16ms) 3 0 0
      (ready (plain_env no_events clock_16ms) (created (640, 480) (0, 0)))
    = Some (locals, s') /\
    getFrame s' = Done 3 s'.
Proof.
  eexists; eexists; split; [vm_compute; reflexivity|].
  refine (proj1 (getFrame_counts_completed_passes
                   (plain_env no_events clock_16ms) 3 0 0
                   (ready (plain_env no_events clock_16ms) (created (640, 480) (0, 0)))
                   _ _ _ _ _ _)).
  - vm_compute; reflexivity.
  - vm_compute; discriminate.
  - vm_compute; discriminate.
Defined.

Example getFrame_after_0_passes :
  getFrame (ready (plain_env no_events clock_16ms) (created (640, 480) (0, 0)))
  = Done 0 (ready (plain_env no_events clock_16ms) (created (640, 480) (0, 0))).
Proof. reflexivity. Qed.

Example getFrame_after_1_pass :
  run_frames (plain_env (escape_at 0) clock_16ms) 10 = Some 1.
Proof. vm_compute; reflexivity. Qed.

Example getFrame_after_1000_passes :
  run_frames (plain_env (escape_at 999) clock_16ms) 2000 = Some 1000.
Proof. vm_compute; reflexivity. Qed.

(** ** The FPS metric *)

Lemma no_fps_report_in_dispatch w evs :
  calls is_say_fps (flat_map (dispatch_calls w) evs) = O.
Proof.
  induction evs as [|ev evs IH]; [reflexivity|].
  cbn [flat_map]; rewrite calls_app, IH.
  destruct ev as [k sc a m| | | | | |]; try reflexivity.
  unfold dispatch_calls.
  destruct (is_escape_press _); [reflexivity|].
  destruct (is_capture_press _); reflexivity.
Qed.

Lemma presented_fps_reports env s :
  calls is_say_fps (trace (presented env s)) = calls is_say_fps (trace s).
Proof.
  cbn [presented entered polled trace add_trace set_ticks set_frame
         set_shouldClose set_polls].
  rewrite !calls_app, calls_cons, no_fps_report_in_dispatch.
  cbn; lia.
Qed.



(** ** How [run] ends *)

(** With hooks that return, the loop is left at the first poll that raises
    the flag, provided the fuel reaches that far. *)
Lemma frame_loop_reaches_close env :
  (forall f, update_hook env f = None) ->
  (forall f, draw_hook env f = None) ->
  forall n fuel framecount start s,
    existsb raises_flag (pending env (polls s + n)) = true ->
    (n < fuel)%nat ->
    exists s', frame_loop env fuel framecount start s = Done tt s' /\
               shouldClose s' = true.
Proof.
  intros Hu Hd; induction n as [|n IH]; intros fuel framecount start s Hev Hfuel.
  - destruct (shouldClose s) eqn:Hs.
    + exists s; split; [apply frame_loop_closed|]; assumption.
    + destruct fuel as [|fuel]; [lia|].
      rewrite frame_loop_open by assumption.
      unfold bind; rewrite loop_body_eq, Hu, Hd; cbv zeta.
      rewrite Nat.add_0_r in Hev.
      assert (Hup : shouldClose (presented env s) = true)
        by (cbn; rewrite Hev; apply orb_true_r).
      destruct (2000 <=? _); eexists;
        (split; [apply frame_loop_closed|]); exact Hup.
  - destruct (shouldClose s) eqn:Hs.
    + exists s; split; [apply frame_loop_closed|]; assumption.
    + destruct fuel as [|fuel]; [lia|].
      rewrite frame_loop_open by assumption.
      unfold bind; rewrite loop_body_eq, Hu, Hd; cbv zeta.
      assert (Hp : polls (presented env s) = S (polls s)) by reflexivity.
      destruct (2000 <=? _); apply IH; try lia;
        cbn [polls log set_fps add_trace]; rewrite Hp;
        replace (S (polls s) + n)%nat with (polls s + S n)%nat by lia;
        assumption.
Qed.

Lemma elapsedMillis_eq env s :
  elapsedMillis env s =
    Done (clock env (ticks s))
      (log (E_elapsedMillis (clock env (ticks s))) (set_ticks (S (ticks s)) s)).
Proof. reflexivity. Qed.

(** The normal exit: the set-up succeeds, the hooks return and the flag is
    raised within the fuel.  [run] returns 0 after one call of shutdownGl. *)
Lemma run_normal_exit env fuel s w n :
  createRenderingTarget_result env = Some w ->
  glewInit_result env = 0 ->
  (forall c, oglplus_result env c = None) ->
  (forall f, update_hook env f = None) ->
  (forall f, draw_hook env f = None) ->
  existsb raises_flag (pending env (polls s + n)) = true ->
  (n < fuel)%nat ->
  exists s0 s',
    run_try env fuel s = Done tt (log E_runShutdownHooks s0) /\
    shouldClose s0 = true /\
    run env fuel s = Done 0 s' /\
    s' = log E_runShutdownHooks s0.
Proof.
  intros Hw Hg Ho Hu Hd Hev Hfuel.
  destruct (frame_loop_reaches_close env Hu Hd n fuel 0
              (clock env (ticks (ready env s)))
              (log (E_elapsedMillis (clock env (ticks (ready env s))))
                 (set_ticks (S (ticks (ready env s))) (ready env s))))
    as (s0 & Hloop & Hs0); [exact Hev|exact Hfuel|].
  assert (Htry : run_try env fuel s = Done tt (log E_runShutdownHooks s0)).
  { rewrite (run_try_ready env fuel s w Hw Hg Ho).
    unfold Finally, bind; rewrite elapsedMillis_eq, Hloop; reflexivity. }
  exists s0, (log E_runShutdownHooks s0).
  rewrite run_eq, Htry; repeat split; assumption.
Qed.

(** C8: run() hands back 0 both when its try block runs to the end (the
    loop saw the close flag) and when the block is left by a runtime_error,
    raised in the set-up or in the loop body: the error's message is written
    out and nothing else tells the caller.  The normal exit is reached
    whenever the set-up succeeds, the hooks return and a poll within the
    fuel raises the flag. *)
Theorem run_returns_zero_on_exit_and_on_caught_failure :
  forall env fuel s,
    (forall s', run_try env fuel s = Done tt s' -> run env fuel s = Done 0 s') /\
    (forall what s',
        run_try env fuel s = Raised (runtime_error what) s' ->
        run env fuel s = Done 0 (log (E_SAY what) s')) /\
    (forall w n,
        createRenderingTarget_result env = Some w ->
        glewInit_result env = 0 ->
        (forall c, oglplus_result env c = None) ->
        (forall f, update_hook env f = None) ->
        (forall f, draw_hook env f = None) ->
        existsb raises_flag (pending env (polls s + n)) = true ->
        (n < fuel)%nat ->
        exists s', run env fuel s = Done 0 s' /\ shouldClose s' = true).
Proof.
  intros env fuel s; split; [|split].
  - intros s' H; rewrite run_eq, H; reflexivity.
  - intros what s' H; rewrite run_eq, H; reflexivity.
  - intros w n Hw Hg Ho Hu Hd Hev Hfuel.
    destruct (run_normal_exit env fuel s w n Hw Hg Ho Hu Hd Hev Hfuel)
      as (s0 & s' & _ & Hs0 & Hrun & ->).
    eexists; split; [exact Hrun|exact Hs0].
Qed.

Lemma run_returns_zero_on_exit_and_on_caught_failure_witness :
  (exists s',
      run_try (plain_env (escape_at 1) clock_16ms) 5 (created (640, 480) (0, 0))
      = Done tt s' /\
      run (plain_env (escape_at 1) clock_16ms) 5 (created (640, 480) (0, 0))
      = Done 0 s') /\
  (exists s',
      run_try (with_update raise_at_frame_2 (plain_env no_events clock_16ms)) 5
        (created (640, 480) (0, 0))
      = Raised (runtime_error "update failed") s' /\
      run (with_update raise_at_frame_2 (plain_env no_events clock_16ms)) 5
        (created (640, 480) (0, 0))
      = Done 0 (log (E_SAY "update failed") s')) /\
  (exists s',
      run_try no_window_env 5 (created (640, 480) (0, 0))
      = Raised (runtime_error "Unable to create OpenGL window") s' /\
      run no_window_env 5 (created (640, 480) (0, 0))
      = Done 0 (log (E_SAY "Unable to create OpenGL window") s')) /\
  (exists s',
      run (plain_env (escape_at 1) clock_16ms) 5 (created (640, 480) (0, 0))
      = Done 0 s' /\
      shouldClose s' = true).
Proof.
  split; [|split; [|split]];
    [eexists|eexists|eexists|
      apply (proj2 (proj2 (run_returns_zero_on_exit_and_on_caught_failure
                             (plain_env (escape_at 1) clock_16ms) 5
                             (created (640, 480) (0, 0)))) 1%nat 1%nat);
      solve [reflexivity | lia]].
  - assert (H : run_try (plain_env (escape_at 1) clock_16ms) 5
                  (created (640, 480) (0, 0))
                = Done tt (final (run_try (plain_env (escape_at 1) clock_16ms) 5
                                    (created (640, 480) (0, 0)))))
      by (vm_compute; reflexivity).
    split; [exact H|].
    exact (proj1 (run_returns_zero_on_exit_and_on_caught_failure _ _ _) _ H).
  - assert (H : run_try (with_update raise_at_frame_2 (plain_env no_events clock_16ms)) 5
                  (created (640, 480) (0, 0))
                = Raised (runtime_error "update failed")
                    (final (run_try (with_update raise_at_frame_2
                                       (plain_env no_events clock_16ms)) 5
                              (created (640, 480) (0, 0)))))
      by (vm_compute; reflexivity).
    split; [exact H|].
    exact (proj1 (proj2 (run_returns_zero_on_exit_and_on_caught_failure _ _ _)) _ _ H).
  - assert (H : run_try no_window_env 5 (created (640, 480) (0, 0))
                = Raised (runtime_error "Unable to create OpenGL window")
                    (final (run_try no_window_env 5 (created (640, 480) (0, 0)))))
      by (vm_compute; reflexivity).
    split; [exact H|].
    exact (proj1 (proj2 (run_returns_zero_on_exit_and_on_caught_failure _ _ _)) _ _ H).
Defined.

(** C10: the handler of run() takes runtime_error and nothing else.  An
    exception of another kind that leaves the try block, from the set-up or
    from the loop body, leaves run() as well: no message is written and no
    status code is handed back.  run() returns after an exception exactly
    when that exception is a runtime_error. *)
Theorem run_lets_other_exceptions_through :
  forall env fuel s,
    (forall what s',
        run_try env fuel s = Raised (other_exception what) s' ->
        run env fuel s = Raised (other_exception what) s') /\
    (forall e s',
        run_try env fuel s = Raised e s' ->
        ((exists code s'', run env fuel s = Done code s'')
         <-> exists what, e = runtime_error what)).
Proof.
  intros env fuel s; split.
  - intros what s' H; rewrite run_eq, H; reflexivity.
  - intros e s' H; rewrite run_eq, H.
    destruct e as [what|what]; split.
    + intros _; exists what; reflexivity.
    + intros _; eexists; eexists; reflexivity.
    + intros (code & s'' & Hrun); discriminate Hrun.
    + intros (what' & He); discriminate He.
Qed.

Lemma run_lets_other_exceptions_through_witness :
  exists s',
    run_try (with_update crash_at_frame_2 (plain_env no_events clock_16ms)) 5
      (created (640, 480) (0, 0))
    = Raised (other_exception "bad_alloc") s' /\
    run (with_update crash_at_frame_2 (plain_env no_events clock_16ms)) 5
      (created (640, 480) (0, 0))
    = Raised (other_exception "bad_alloc") s' /\
    calls is_say (trace s') = O /\
    calls is_shutdown (trace s') = 1%nat.
Proof.
  eexists.
  assert (H : run_try (with_update crash_at_frame_2 (plain_env no_events clock_16ms)) 5
                (created (640, 480) (0, 0))
              = Raised (other_exception "bad_alloc")
                  (final (run_try (with_update crash_at_frame_2
                                     (plain_env no_events clock_16ms)) 5
                            (created (640, 480) (0, 0)))))
    by (vm_compute; reflexivity).
  split; [exact H|].
  split; [exact (proj1 (run_lets_other_exceptions_through _ _ _) _ _ H)|].
  split; vm_compute; reflexivity.
Defined.

(** ** The text overlay *)

Lemma pop_push_set_top m st : pop (set_top m (push st)) = st.
Proof. destruct st; reflexivity. Qed.

(** [renderStringAt] in one equation: the two pushes, the call of the text
    renderer on the stacks so prepared, and the two pops only when that call
    returns. *)
Lemma renderStringAt_eq env str pos s :
  renderStringAt env str pos s =
    let s1 := log (E_renderString str (overlay_cursor s pos) (f_lit 18 1))
                (set_stacks (overlay_modelview s) (overlay_projection s) s) in
    let result :=
      renderString_effect env str (overlay_cursor s pos) (f_lit 18 1)
        (overlay_modelview s, overlay_projection s) in
    match snd result with
    | None =>
        Done tt (set_stacks (pop (fst (fst result))) (pop (snd (fst result))) s1)
    | Some e =>
        Raised e (set_stacks (fst (fst result)) (snd (fst result)) s1)
    end.
Proof.
  unfold renderStringAt, overlay_cursor, overlay_modelview, overlay_projection.
  open_state s; run_state.
  destruct (renderString_effect env str _ _ _) as [[mv pr] [e|]];
    reflexivity.
Qed.

(** C2, as amended: when the text renderer returns, and handed the stacks
    back as it got them, renderStringAt returns with the modelview and the
    projection stack as they were before the call.  When the text renderer
    raises, renderStringAt is left by that exception before its two pops:
    both stacks keep the entry pushed for the overlay, one deeper than
    before the call. *)
Theorem renderStringAt_restores_stacks_on_return :
  forall env str pos s r,
    renderString_effect env str (overlay_cursor s pos) (f_lit 18 1)
      (overlay_modelview s, overlay_projection s)
    = ((overlay_modelview s, overlay_projection s), r) ->
    match r with
    | None =>
        exists s',
          renderStringAt env str pos s = Done tt s' /\
          modelview s' = modelview s /\
          projection s' = projection s
    | Some e =>
        exists s',
          renderStringAt env str pos s = Raised e s' /\
          modelview s' = overlay_modelview s /\
          projection s' = overlay_projection s /\
          depth (modelview s') = S (depth (modelview s)) /\
          depth (projection s') = S (depth (projection s))
    end.
Proof.
  intros env str pos s r H.
  rewrite renderStringAt_eq; cbv zeta; rewrite H; cbn [fst snd].
  destruct r as [e|]; eexists; (split; [reflexivity|]);
    cbn [modelview projection set_stacks log add_trace].
  - repeat split.
  - unfold overlay_modelview, overlay_projection, identity.
    rewrite !pop_push_set_top; split; reflexivity.
Qed.

Lemma renderStringAt_restores_stacks_on_return_witness :
  (exists s',
      renderStringAt (plain_env no_events clock_16ms) "FPS: 60.00"
        (f_lit 0 1, f_lit 0 1) (created (640, 480) (0, 0)) = Done tt s' /\
      modelview s' = modelview (created (640, 480) (0, 0)) /\
      projection s' = projection (created (640, 480) (0, 0))) /\
  (exists s',
      renderStringAt no_font_env "FPS: 60.00"
        (f_lit 0 1, f_lit 0 1) (created (640, 480) (0, 0))
      = Raised (runtime_error "no font") s' /\
      modelview s' = overlay_modelview (created (640, 480) (0, 0)) /\
      projection s' = overlay_projection (created (640, 480) (0, 0)) /\
      depth (modelview s') = 2%nat /\
      depth (projection s') = 2%nat).
Proof.
  split.
  - exact (renderStringAt_restores_stacks_on_return
             (plain_env no_events clock_16ms) "FPS: 60.00"
             (f_lit 0 1, f_lit 0 1) (created (640, 480) (0, 0)) None eq_refl).
  - exact (renderStringAt_restores_stacks_on_return
             no_font_env "FPS: 60.00"
             (f_lit 0 1, f_lit 0 1) (created (640, 480) (0, 0))
             (Some (runtime_error "no font")) eq_refl).
Defined.

(** C2 as stated fails: when the text renderer raises, the stacks are not
    back at their values from before the call. *)
Lemma renderStringAt_restores_stacks_on_failure_cex :
  ~ (modelview (final (renderStringAt no_font_env "FPS: 60.00"
                         (f_lit 0 1, f_lit 0 1) (created (640, 480) (0, 0))))
     = modelview (created (640, 480) (0, 0)) /\
     projection (final (renderStringAt no_font_env "FPS: 60.00"
                          (f_lit 0 1, f_lit 0 1) (created (640, 480) (0, 0))))
     = projection (created (640, 480) (0, 0))).
Proof.
  intros [H _]; vm_compute in H; discriminate H.
Qed.

(** * More properties *)

(** ** Counting in traces *)

Lemma dispatch_calls_are_dispatch_events w ev :
  forallb is_dispatch_event (dispatch_calls w ev) = true.
Proof.
  destruct ev as [k sc a m| | | | | |]; try reflexivity.
  unfold dispatch_calls.
  destruct (is_escape_press _); [reflexivity|].
  destruct (is_capture_press _); reflexivity.
Qed.

Lemma calls_none_of p t :
  (forall e, In e t -> p e = false) -> calls p t = O.
Proof.
  unfold calls; induction t as [|e t IH]; intros H; [reflexivity|].
  cbn [filter]; rewrite (H e (or_introl eq_refl)).
  apply IH; intros e' He'; apply H; right; exact He'.
Qed.

(** A predicate that holds of no dispatch event sees nothing of a poll's
    handlers. *)
Lemma calls_dispatch p w evs :
  (forall e, is_dispatch_event e = true -> p e = false) ->
  calls p (flat_map (dispatch_calls w) evs) = O.
Proof.
  intros Hp; apply calls_none_of; intros e He.
  apply in_flat_map in He; destruct He as (ev & _ & He).
  apply Hp.
  pose proof (dispatch_calls_are_dispatch_events w ev) as Hall.
  rewrite forallb_forall in Hall; apply Hall; exact He.
Qed.

Lemma calls_entered p env s :
  (forall e, is_dispatch_event e = true -> p e = false) ->
  calls p (trace (entered env s))
  = (calls p (trace s) + b2n (p E_glfwPollEvents))%nat.
Proof.
  intros Hp.
  cbn [entered polled trace add_trace set_frame set_shouldClose set_polls].
  rewrite calls_app, calls_cons, calls_dispatch by assumption.
  unfold b2n; lia.
Qed.

Lemma calls_presented p env s :
  (forall e, is_dispatch_event e = true -> p e = false) ->
  calls p (trace (presented env s))
  = (calls p (trace s) + b2n (p E_glfwPollEvents) + b2n (p E_update)
     + b2n (p E_draw) + b2n (p (E_glfwSwapBuffers (window s)))
     + b2n (p (E_elapsedMillis (clock env (ticks s)))))%nat.
Proof.
  intros Hp.
  change (trace (presented env s))
    with (trace (entered env s)
          ++ [E_update; E_draw; E_glfwSwapBuffers (window s);
              E_elapsedMillis (clock env (ticks s))]).
  rewrite calls_app, calls_entered by assumption.
  rewrite !calls_cons; unfold b2n, calls; cbn [filter List.length]; lia.
Qed.

Ltac not_dispatch := intros [] H; solve [reflexivity | discriminate H].

Lemma handlers_of_dispatch w ev :
  filter is_handler_call (dispatch_calls w ev) = handler_call ev.
Proof.
  destruct ev as [k sc a m| | | | | |]; try reflexivity.
  unfold dispatch_calls.
  destruct (is_escape_press _); [reflexivity|].
  destruct (is_capture_press _); reflexivity.
Qed.

Lemma handlers_of_dispatch_all w evs :
  filter is_handler_call (flat_map (dispatch_calls w) evs)
  = flat_map handler_call evs.
Proof.
  induction evs as [|ev evs IH]; [reflexivity|].
  cbn [flat_map]; rewrite filter_app, handlers_of_dispatch, IH; reflexivity.
Qed.

Lemma handlers_entered env s :
  filter is_handler_call (trace (entered env s))
  = filter is_handler_call (trace s)
    ++ flat_map handler_call (pending env (polls s)).
Proof.
  cbn [entered polled trace add_trace set_frame set_shouldClose set_polls].
  rewrite filter_app; cbn [filter is_handler_call].
  rewrite handlers_of_dispatch_all; reflexivity.
Qed.

Lemma batches_succ env first k :
  batches env first (S k) = batches env first k ++ pending env (first + k).
Proof.
  unfold batches; rewrite seq_S, flat_map_app; cbn [flat_map].
  rewrite app_nil_r; reflexivity.
Qed.

(** ** Wrap-around *)

Lemma wrap_in_range x : in_int_range x -> wrap 32 x = x.
Proof.
  unfold in_int_range, INT_MAX, wrap; intros H.
  rewrite Z.mod_small; lia.
Qed.

Lemma int_incr_wrap x : int_incr (wrap 32 x) = wrap 32 (x + 1).
Proof.
  unfold int_incr, wrap.
  replace ((x + 2 ^ (32 - 1)) mod 2 ^ 32 - 2 ^ (32 - 1) + 1 + 2 ^ (32 - 1))
    with ((x + 2 ^ (32 - 1)) mod 2 ^ 32 + 1) by lia.
  rewrite Zplus_mod_idemp_l.
  replace (x + 2 ^ (32 - 1) + 1) with (x + 1 + 2 ^ (32 - 1)) by lia.
  reflexivity.
Qed.

(** ** Passes of the loop, one after the other *)

Lemma int_incr_counted x k : int_incr (counted x k) = counted x (S k).
Proof.
  destruct k as [|k]; [reflexivity|].
  unfold counted; rewrite int_incr_wrap; f_equal; lia.
Qed.

Lemma counted_in_range x k :
  - 2 ^ 31 <= x -> x + Z.of_nat k <= INT_MAX -> counted x k = x + Z.of_nat k.
Proof.
  intros Hlo Hhi; destruct k as [|k]; [cbn; lia|].
  unfold counted; apply wrap_in_range; unfold in_int_range; lia.
Qed.

Lemma after_passes_none env s : after_passes env O s s.
Proof.
  constructor; try reflexivity; try (rewrite Nat.add_0_r; reflexivity).
  - cbn [batches seq flat_map]; rewrite app_nil_r; reflexivity.
  - cbn [batches seq flat_map existsb]; rewrite orb_false_r; reflexivity.
  - left; reflexivity.
Qed.

Lemma pass_end_calls p env s s' :
  pass_end env s s' ->
  (forall e, is_dispatch_event e = true -> p e = false) ->
  (forall f, p (E_SAY_FPS f) = false) ->
  calls p (trace s')
  = (calls p (trace s) + b2n (p E_glfwPollEvents) + b2n (p E_update)
     + b2n (p E_draw) + b2n (p (E_glfwSwapBuffers (window s)))
     + b2n (p (E_elapsedMillis (clock env (ticks s)))))%nat.
Proof.
  intros [->|[f ->]] Hp Hf; [apply calls_presented; assumption|].
  cbn [trace log add_trace set_fps].
  rewrite calls_app, calls_presented by assumption.
  rewrite calls_cons, Hf; unfold calls; cbn; lia.
Qed.

Lemma pass_end_handlers env s s' :
  pass_end env s s' ->
  filter is_handler_call (trace s')
  = filter is_handler_call (trace s)
    ++ flat_map handler_call (pending env (polls s)).
Proof.
  assert (H : filter is_handler_call (trace (presented env s))
              = filter is_handler_call (trace s)
                ++ flat_map handler_call (pending env (polls s))).
  { change (trace (presented env s))
      with (trace (entered env s)
            ++ [E_update; E_draw; E_glfwSwapBuffers (window s);
                E_elapsedMillis (clock env (ticks s))]).
    rewrite filter_app, handlers_entered; cbn [filter is_handler_call].
    rewrite app_nil_r; reflexivity. }
  intros [->|[f ->]]; [exact H|].
  cbn [trace log add_trace set_fps].
  rewrite filter_app, H; cbn [filter is_handler_call].
  rewrite app_nil_r; reflexivity.
Qed.

Lemma screenshots_entered env s :
  calls is_screenshot (trace (entered env s))
  = (calls is_screenshot (trace s)
     + List.length (filter is_capture_press (pending env (polls s))))%nat.
Proof.
  cbn [entered polled trace add_trace set_frame set_shouldClose set_polls].
  rewrite calls_app, calls_cons, screenshots_of_dispatch_all.
  cbn [is_screenshot]; lia.
Qed.

Lemma pass_end_screenshots env s s' :
  pass_end env s s' ->
  calls is_screenshot (trace s')
  = (calls is_screenshot (trace s)
     + List.length (filter is_capture_press (pending env (polls s))))%nat.
Proof.
  assert (H : calls is_screenshot (trace (presented env s))
              = (calls is_screenshot (trace s)
                 + List.length (filter is_capture_press (pending env (polls s))))%nat).
  { change (trace (presented env s))
      with (trace (entered env s)
            ++ [E_update; E_draw; E_glfwSwapBuffers (window s);
                E_elapsedMillis (clock env (ticks s))]).
    rewrite calls_app, screenshots_entered; unfold calls; cbn; lia. }
  intros [->|[f ->]]; [exact H|].
  cbn [trace log add_trace set_fps].
  rewrite calls_app, H; unfold calls; cbn; lia.
Qed.

Lemma batches_capture_succ env first k :
  List.length (filter is_capture_press (batches env first (S k)))
  = (List.length (filter is_capture_press (batches env first k))
     + List.length (filter is_capture_press (pending env (first + k))))%nat.
Proof. rewrite batches_succ, filter_app, length_app; reflexivity. Qed.

Lemma batches_flag_succ env first k :
  existsb raises_flag (batches env first (S k))
  = existsb raises_flag (batches env first k)
    || existsb raises_flag (pending env (first + k)).
Proof. rewrite batches_succ, existsb_app; reflexivity. Qed.

Lemma after_passes_step env k s s1 s2 :
  after_passes env k s s1 ->
  shouldClose s1 = false ->
  pass_end env s1 s2 ->
  after_passes env (S k) s s2.
Proof.
  intros A Hopen E.
  assert (Hfields :
            window s2 = window s1 /\ windowSize s2 = windowSize s1 /\
            windowPosition s2 = windowPosition s1 /\
            windowAspect s2 = windowAspect s1 /\
            windowAspectInverse s2 = windowAspectInverse s1 /\
            modelview s2 = modelview s1 /\ projection s2 = projection s1 /\
            polls s2 = S (polls s1) /\ ticks s2 = S (ticks s1) /\
            frame s2 = int_incr (frame s1) /\
            shouldClose s2
            = shouldClose s1 || existsb raises_flag (pending env (polls s1)))
    by (destruct E as [->|[f ->]]; repeat split).
  destruct Hfields
    as (Hw & Hsz & Hpos & Ha & Hi & Hmv & Hpr & Hq & Ht & Hf & Hflag).
  constructor.
  - rewrite (pass_end_calls is_poll env s1 s2 E) by not_dispatch || reflexivity.
    rewrite (ap_poll _ _ _ _ A); cbn; lia.
  - rewrite (pass_end_calls is_update env s1 s2 E) by not_dispatch || reflexivity.
    rewrite (ap_update _ _ _ _ A); cbn; lia.
  - rewrite (pass_end_calls is_draw env s1 s2 E) by not_dispatch || reflexivity.
    rewrite (ap_draw _ _ _ _ A); cbn; lia.
  - rewrite (pass_end_calls is_swap env s1 s2 E) by not_dispatch || reflexivity.
    rewrite (ap_swap _ _ _ _ A); cbn; lia.
  - rewrite (pass_end_calls is_shutdown env s1 s2 E) by not_dispatch || reflexivity.
    rewrite (ap_shutdown _ _ _ _ A); cbn; lia.
  - rewrite (pass_end_handlers env s1 s2 E), (ap_handlers _ _ _ _ A).
    rewrite batches_succ, flat_map_app, (ap_queue _ _ _ _ A), app_assoc.
    reflexivity.
  - rewrite (pass_end_screenshots env s1 s2 E), (ap_screenshots _ _ _ _ A).
    rewrite batches_capture_succ, (ap_queue _ _ _ _ A); lia.
  - rewrite Hflag, (ap_flag _ _ _ _ A), batches_flag_succ, (ap_queue _ _ _ _ A).
    rewrite orb_assoc; reflexivity.
  - right; cbn [pred]; rewrite <- (ap_flag _ _ _ _ A); exact Hopen.
  - rewrite Hq, (ap_queue _ _ _ _ A); lia.
  - rewrite Ht, (ap_ticks _ _ _ _ A); lia.
  - rewrite Hf, (ap_frame _ _ _ _ A); apply int_incr_counted.
  - rewrite Hw; apply (ap_window _ _ _ _ A).
  - rewrite Hsz; apply (ap_size _ _ _ _ A).
  - rewrite Hpos; apply (ap_position _ _ _ _ A).
  - rewrite Ha; apply (ap_aspect _ _ _ _ A).
  - rewrite Hi; apply (ap_inverse _ _ _ _ A).
  - rewrite Hmv; apply (ap_modelview _ _ _ _ A).
  - rewrite Hpr; apply (ap_projection _ _ _ _ A).
Qed.

Lemma after_cut_pass_update env k s s1 :
  after_passes env k s s1 ->
  after_cut_pass env k false s (log E_update (entered env s1)).
Proof.
  intros A.
  assert (Hc : forall p,
             (forall e, is_dispatch_event e = true -> p e = false) ->
             calls p (trace (log E_update (entered env s1)))
             = (calls p (trace s1) + b2n (p E_glfwPollEvents)
                + b2n (p E_update))%nat).
  { intros p Hp; cbn [trace log add_trace].
    rewrite calls_app, calls_entered, calls_cons by assumption.
    unfold b2n, calls; cbn [filter List.length]; lia. }
  constructor.
  - rewrite Hc by not_dispatch; rewrite (ap_poll _ _ _ _ A); cbn; lia.
  - rewrite Hc by not_dispatch; rewrite (ap_update _ _ _ _ A); cbn; lia.
  - rewrite Hc by not_dispatch; rewrite (ap_draw _ _ _ _ A); cbn; lia.
  - rewrite Hc by not_dispatch; rewrite (ap_swap _ _ _ _ A); cbn; lia.
  - rewrite Hc by not_dispatch; rewrite (ap_shutdown _ _ _ _ A); cbn; lia.
  - cbn [trace log add_trace].
    rewrite filter_app, handlers_entered, (ap_handlers _ _ _ _ A).
    cbn [filter is_handler_call].
    rewrite batches_succ, flat_map_app, (ap_queue _ _ _ _ A), app_nil_r, app_assoc.
    reflexivity.
  - cbn [trace log add_trace].
    rewrite calls_app, screenshots_entered, (ap_screenshots _ _ _ _ A).
    rewrite batches_capture_succ, (ap_queue _ _ _ _ A).
    unfold calls; cbn; lia.
  - change (frame (log E_update (entered env s1))) with (int_incr (frame s1)).
    rewrite (ap_frame _ _ _ _ A); apply int_incr_counted.
  - apply (ap_window _ _ _ _ A).
  - apply (ap_size _ _ _ _ A).
  - apply (ap_position _ _ _ _ A).
  - apply (ap_modelview _ _ _ _ A).
  - apply (ap_projection _ _ _ _ A).
Qed.

Lemma after_cut_pass_draw env k s s1 :
  after_passes env k s s1 ->
  after_cut_pass env k true s (add_trace [E_update; E_draw] (entered env s1)).
Proof.
  intros A.
  assert (Hc : forall p,
             (forall e, is_dispatch_event e = true -> p e = false) ->
             calls p (trace (add_trace [E_update; E_draw] (entered env s1)))
             = (calls p (trace s1) + b2n (p E_glfwPollEvents)
                + b2n (p E_update) + b2n (p E_draw))%nat).
  { intros p Hp; cbn [trace add_trace].
    rewrite calls_app, calls_entered, !calls_cons by assumption.
    unfold b2n, calls; cbn [filter List.length]; lia. }
  constructor.
  - rewrite Hc by not_dispatch; rewrite (ap_poll _ _ _ _ A); cbn; lia.
  - rewrite Hc by not_dispatch; rewrite (ap_update _ _ _ _ A); cbn; lia.
  - rewrite Hc by not_dispatch; rewrite (ap_draw _ _ _ _ A); cbn; lia.
  - rewrite Hc by not_dispatch; rewrite (ap_swap _ _ _ _ A); cbn; lia.
  - rewrite Hc by not_dispatch; rewrite (ap_shutdown _ _ _ _ A); cbn; lia.
  - cbn [trace add_trace].
    rewrite filter_app, handlers_entered, (ap_handlers _ _ _ _ A).
    cbn [filter is_handler_call].
    rewrite batches_succ, flat_map_app, (ap_queue _ _ _ _ A), app_nil_r, app_assoc.
    reflexivity.
  - cbn [trace add_trace].
    rewrite calls_app, screenshots_entered, (ap_screenshots _ _ _ _ A).
    rewrite batches_capture_succ, (ap_queue _ _ _ _ A).
    unfold calls; cbn; lia.
  - change (frame (add_trace [E_update; E_draw] (entered env s1)))
      with (int_incr (frame s1)).
    rewrite (ap_frame _ _ _ _ A); apply int_incr_counted.
  - apply (ap_window _ _ _ _ A).
  - apply (ap_size _ _ _ _ A).
  - apply (ap_position _ _ _ _ A).
  - apply (ap_modelview _ _ _ _ A).
  - apply (ap_projection _ _ _ _ A).
Qed.

(** Every way the loop can go, from a state [s1] reached after [k] passes. *)
Lemma frame_loop_summary_from env s fuel :
  forall framecount start k s1,
    after_passes env k s s1 ->
    loop_summary env (k + fuel) s (frame_loop env fuel framecount start s1).
Proof.
  induction fuel as [|fuel IH]; intros framecount start k s1 A.
  - destruct (shouldClose s1) eqn:Hs.
    + rewrite frame_loop_closed by assumption; exists k; split; [assumption|split; [assumption|lia]].
    + rewrite frame_loop_no_fuel by assumption; exists k; split; [assumption|split; [assumption|lia]].
  - destruct (shouldClose s1) eqn:Hs.
    + rewrite frame_loop_closed by assumption; exists k; split; [assumption|split; [assumption|lia]].
    + rewrite frame_loop_open by assumption.
      unfold bind; rewrite loop_body_eq.
      destruct (update_hook env _) as [e|].
      { exists k, false; split; [apply after_cut_pass_update; assumption|lia]. }
      destruct (draw_hook env _) as [e|].
      { exists k, true; split; [apply after_cut_pass_draw; assumption|lia]. }
      replace (k + S fuel)%nat with (S k + fuel)%nat by lia.
      cbv zeta; destruct (2000 <=? _); cbn [fst snd];
        apply (IH _ _ (S k)); apply (after_passes_step env k s s1 _ A Hs).
      * right; eexists; reflexivity.
      * left; reflexivity.
Qed.

Lemma frame_loop_summary env fuel framecount start s :
  loop_summary env fuel s (frame_loop env fuel framecount start s).
Proof.
  apply (frame_loop_summary_from env s fuel framecount start O).
  apply after_passes_none.
Qed.

(** ** The set-up of [run], case by case *)

Lemma initGl_outcome_eq env s :
  initGl env s =
    match snd (gl_calls_until_raise env initGl_sequence) with
    | None => Done tt (add_trace (fst (gl_calls_until_raise env initGl_sequence)) s)
    | Some e => Raised e (add_trace (fst (gl_calls_until_raise env initGl_sequence)) s)
    end.
Proof.
  unfold initGl, oglplus, initGl_sequence; cbn [gl_calls_until_raise].
  open_state s.
  destruct (oglplus_result env BindDrawFramebuffer);
    [run_state; reflexivity|].
  destruct (oglplus_result env BindReadFramebuffer);
    [run_state; cbn [fst snd]; rewrite <- !app_assoc; reflexivity|].
  destruct (oglplus_result env EnableCullFace);
    [run_state; cbn [fst snd]; rewrite <- !app_assoc; reflexivity|].
  destruct (oglplus_result env EnableDepthTest);
    [run_state; cbn [fst snd]; rewrite <- !app_assoc; reflexivity|].
  destruct (oglplus_result env DisableDither);
    run_state; cbn [fst snd]; rewrite <- !app_assoc; reflexivity.
Qed.

Lemma gl_calls_all_return env :
  (forall c, oglplus_result env c = None) ->
  gl_calls_until_raise env initGl_sequence = (initGl_calls, None).
Proof.
  intros H; unfold initGl_sequence; cbn [gl_calls_until_raise].
  rewrite !H; reflexivity.
Qed.

Lemma gl_calls_some_raise env c :
  oglplus_result env c <> None ->
  exists e, snd (gl_calls_until_raise env initGl_sequence) = Some e.
Proof.
  intros Hc; unfold initGl_sequence; cbn [gl_calls_until_raise].
  destruct (oglplus_result env BindDrawFramebuffer) as [e|] eqn:H1;
    [exists e; reflexivity|].
  destruct (oglplus_result env BindReadFramebuffer) as [e|] eqn:H2;
    [exists e; reflexivity|].
  destruct (oglplus_result env EnableCullFace) as [e|] eqn:H3;
    [exists e; reflexivity|].
  destruct (oglplus_result env EnableDepthTest) as [e|] eqn:H4;
    [exists e; reflexivity|].
  destruct (oglplus_result env DisableDither) as [e|] eqn:H5;
    [exists e; reflexivity|].
  destruct c; congruence.
Qed.

Lemma gl_calls_are_gl_calls env cs :
  forallb is_gl_call (fst (gl_calls_until_raise env cs)) = true.
Proof.
  induction cs as [|c cs IH]; [reflexivity|].
  cbn [gl_calls_until_raise].
  destruct (oglplus_result env c); [reflexivity|].
  cbn [fst forallb is_gl_call andb]; exact IH.
Qed.

(** GLEW fails: [postCreate] raises, whatever the handle. *)
Lemma run_try_glew_fails env fuel s :
  glewInit_result env <> 0 ->
  run_try env fuel s =
    Raised (runtime_error "Failed to initialize GLEW")
      (add_trace (opening_calls env s) (targeted env s)).
Proof.
  intros Hg; rewrite run_try_opening.
  unfold bind at 1; rewrite postCreate_eq; cbv zeta.
  destruct (Z.eqb_spec 0 (glewInit_result env)) as [E|_]; [congruence|].
  unfold opening_calls, targeted.
  open_state s; run_state; rewrite <- !app_assoc; reflexivity.
Qed.

(** A window and GLEW: [run] reaches [initGl] in the state [contexted]. *)
Lemma run_try_contexted env fuel s w :
  createRenderingTarget_result env = Some w ->
  glewInit_result env = 0 ->
  run_try env fuel s =
    (initGl env ;;
     Finally (unwound env) shutdownGl
       (start <- elapsedMillis env ;; frame_loop env fuel 0 start))
      (contexted env s).
Proof.
  intros Hw Hg; rewrite run_try_opening.
  unfold bind at 1; rewrite postCreate_eq, Hg; cbv zeta.
  change (0 =? 0) with true; cbv iota.
  unfold bind at 1, gets.
  cbn [window set_window add_trace set_aspect]. rewrite Hw.
  unfold bind at 1, ret.
  f_equal. unfold contexted, opening_calls, targeted. rewrite Hw.
  open_state s; run_state; cbn [fst snd]; rewrite <- !app_assoc; reflexivity.
Qed.

(** The guarded loop: [shutdownGl] runs when, and only when, the loop is
    left. *)
Lemma guarded_loop_eq env fuel s :
  Finally (unwound env) shutdownGl
    (start <- elapsedMillis env ;; frame_loop env fuel 0 start) s
  = match frame_loop env fuel 0 (clock env (ticks s)) (clocked env s) with
    | Done _ s' => Done tt (log E_runShutdownHooks s')
    | Raised e s' =>
        Raised e (if unwound env e then log E_runShutdownHooks s' else s')
    | Running s' => Running s'
    end.
Proof.
  unfold Finally, bind at 1; rewrite elapsedMillis_eq.
  fold (clocked env s).
  destruct (frame_loop env fuel 0 (clock env (ticks s)) (clocked env s))
    as [[] s'|e s'|s']; try reflexivity.
  destruct (unwound env e); reflexivity.
Qed.

Lemma ready_eq env s : ready env s = add_trace initGl_calls (contexted env s).
Proof.
  unfold ready, contexted.
  rewrite add_trace_add_trace, <- app_assoc; reflexivity.
Qed.

Lemma calls_postCreate_head p w :
  (forall e, In e (postCreate_head w) -> p e = false) ->
  calls p (postCreate_head w) = O.
Proof. apply calls_none_of. Qed.

Lemma shutdowns_contexted env s :
  calls is_shutdown (trace (contexted env s)) = calls is_shutdown (trace s).
Proof.
  cbn [contexted targeted trace add_trace set_aspect set_window].
  unfold opening_calls.
  rewrite !calls_app, calls_preCreate, calls_postCreate_tail_shutdown
    by reflexivity.
  unfold calls; cbn; lia.
Qed.

Lemma shutdowns_ready env s :
  calls is_shutdown (trace (ready env s)) = calls is_shutdown (trace s).
Proof.
  rewrite ready_eq; cbn [trace add_trace].
  rewrite calls_app, shutdowns_contexted; unfold calls; cbn; lia.
Qed.

Lemma shutdowns_clocked env s :
  calls is_shutdown (trace (clocked env s)) = calls is_shutdown (trace s).
Proof.
  cbn [clocked trace log add_trace set_ticks].
  rewrite calls_app; unfold calls; cbn; lia.
Qed.

(** ** The guard around the loop *)

(** X1: once the set-up of run() succeeded (a window, GLEW, the GL calls of
    initGl), shutdownGl is called exactly once whenever run() returns,
    after a normal exit as after a caught runtime_error, and it is the last
    call of the try block: nothing follows it but the message of the caught
    failure.  The same holds when an exception of another kind leaves run()
    to a caller that handles it.  While the loop is still going it has not
    been called. *)
Theorem run_shuts_down_once_when_the_loop_is_left :
  forall env fuel s w,
    createRenderingTarget_result env = Some w ->
    glewInit_result env = 0 ->
    (forall c, oglplus_result env c = None) ->
    match run env fuel s with
    | Running s' => calls is_shutdown (trace s') = calls is_shutdown (trace s)
    | Done _ s' =>
        exists before report,
          trace s' = before ++ E_runShutdownHooks :: report /\
          calls is_shutdown before = calls is_shutdown (trace s) /\
          (report = [] \/ exists what, report = [E_SAY what])
    | Raised _ s' =>
        caller_catches env = true ->
        exists before,
          trace s' = before ++ [E_runShutdownHooks] /\
          calls is_shutdown before = calls is_shutdown (trace s)
    end.
Proof.
  intros env fuel s w Hw Hg Ho.
  rewrite run_eq, (run_try_ready env fuel s w Hw Hg Ho), guarded_loop_eq.
  pose proof (frame_loop_summary env fuel 0 (clock env (ticks (ready env s)))
                (clocked env (ready env s))) as Hsum.
  destruct (frame_loop env fuel 0 _ _) as [[] s'|e s'|s'];
    cbn [loop_summary] in Hsum.
  - destruct Hsum as (k & A & _ & _).
    exists (trace s'), []; repeat split; [|left; reflexivity].
    rewrite (ap_shutdown _ _ _ _ A), shutdowns_clocked, shutdowns_ready.
    reflexivity.
  - destruct Hsum as (k & drawn & A & _).
    assert (Hbefore : calls is_shutdown (trace s') = calls is_shutdown (trace s))
      by (rewrite (cp_shutdown _ _ _ _ _ A), shutdowns_clocked, shutdowns_ready;
          reflexivity).
    destruct e as [what|what]; cbn [unwound].
    + exists (trace s'), [E_SAY what]; repeat split; [|assumption|right; eauto].
      cbn [trace log add_trace]; rewrite <- app_assoc; reflexivity.
    + intros Hcatch; rewrite Hcatch.
      exists (trace s'); split; [reflexivity|assumption].
  - destruct Hsum as (k & A & _ & _).
    rewrite (ap_shutdown _ _ _ _ A), shutdowns_clocked, shutdowns_ready.
    reflexivity.
Qed.

Lemma run_shuts_down_once_when_the_loop_is_left_witness :
  exists before report,
    trace (final (run (with_update raise_at_frame_2 (plain_env no_events clock_16ms))
                    5 (created (640, 480) (0, 0))))
    = before ++ E_runShutdownHooks :: report /\
    calls is_shutdown before = O /\
    (report = [] \/ exists what, report = [E_SAY what]).
Proof.
  pose proof (run_shuts_down_once_when_the_loop_is_left
                (with_update raise_at_frame_2 (plain_env no_events clock_16ms))
                5 (created (640, 480) (0, 0)) 1%nat eq_refl eq_refl
                (fun _ => eq_refl)) as H.
  assert (E : run (with_update raise_at_frame_2 (plain_env no_events clock_16ms))
                5 (created (640, 480) (0, 0))
              = Done 0
                  (final (run (with_update raise_at_frame_2
                                 (plain_env no_events clock_16ms))
                            5 (created (640, 480) (0, 0)))))
    by (vm_compute; reflexivity).
  destruct (run (with_update raise_at_frame_2 (plain_env no_events clock_16ms))
              5 (created (640, 480) (0, 0))) as [code s'|e s'|s'];
    [exact H|discriminate E|discriminate E].
Defined.

Example unhandled_exception_skips_shutdownGl :
  calls is_shutdown
    (trace (final (run (with_caller false
                          (with_update crash_at_frame_2
                             (plain_env no_events clock_16ms)))
                     5 (created (640, 480) (0, 0))))) = O.
Proof. vm_compute; reflexivity. Qed.

Example handled_exception_runs_shutdownGl :
  calls is_shutdown
    (trace (final (run (with_caller true
                          (with_update crash_at_frame_2
                             (plain_env no_events clock_16ms)))
                     5 (created (640, 480) (0, 0))))) = 1%nat.
Proof. vm_compute; reflexivity. Qed.

(** ** What the loop does in every outcome *)

(** X2: however the frame loop goes (it ends on the close flag, it is left
    by an exception from a hook, or it is still going), its calls keep in
    step: every pass entered polls once and calls update once; draw is
    called only after update returned and a frame is presented only after
    draw returned, so presented <= drawn <= entered <= presented + 1.  The
    counts are all equal unless a hook raised, and then exactly the last
    pass entered was not presented. *)
Theorem frame_loop_calls_keep_in_step :
  forall env fuel framecount start s,
  exists entered drawn presented : nat,
    calls is_poll (trace (final (frame_loop env fuel framecount start s)))
    = (calls is_poll (trace s) + entered)%nat /\
    calls is_update (trace (final (frame_loop env fuel framecount start s)))
    = (calls is_update (trace s) + entered)%nat /\
    calls is_draw (trace (final (frame_loop env fuel framecount start s)))
    = (calls is_draw (trace s) + drawn)%nat /\
    calls is_swap (trace (final (frame_loop env fuel framecount start s)))
    = (calls is_swap (trace s) + presented)%nat /\
    (presented <= drawn <= entered)%nat /\
    (entered <= fuel)%nat /\
    match frame_loop env fuel framecount start s with
    | Raised _ _ => entered = S presented
    | Done _ _ => entered = presented
    | Running _ => entered = presented /\ entered = fuel
    end.
Proof.
  intros env fuel framecount start s.
  pose proof (frame_loop_summary env fuel framecount start s) as Hsum.
  destruct (frame_loop env fuel framecount start s) as [[] s'|e s'|s'];
    cbn [loop_summary final] in *.
  - destruct Hsum as (k & A & _ & Hk).
    exists k, k, k; destruct A; repeat split; auto.
  - destruct Hsum as (k & drawn & A & Hk).
    exists (S k), (if drawn then S k else k), k; destruct A;
      repeat split; auto; destruct drawn; lia.
  - destruct Hsum as (k & A & _ & Hk).
    exists k, k, k; destruct A; repeat split; auto; lia.
Qed.

(** X3: getFrame() counts the passes entered, not the passes that ran to
    their end: whatever the outcome of the loop, the counter has gone up by
    one for every poll made, also for a pass that a hook left by an
    exception.  With the 32-bit wrap of the counter written out, and as a
    plain sum while the sum fits an int. *)
Theorem frame_counter_counts_passes_entered :
  forall env fuel framecount start s,
  exists entered : nat,
    calls is_poll (trace (final (frame_loop env fuel framecount start s)))
    = (calls is_poll (trace s) + entered)%nat /\
    frame (final (frame_loop env fuel framecount start s))
    = counted (frame s) entered /\
    (- 2 ^ 31 <= frame s ->
     frame s + Z.of_nat entered <= INT_MAX ->
     getFrame (final (frame_loop env fuel framecount start s))
     = Done (frame s + Z.of_nat entered)
         (final (frame_loop env fuel framecount start s))).
Proof.
  intros env fuel framecount start s.
  pose proof (frame_loop_summary env fuel framecount start s) as Hsum.
  destruct (frame_loop env fuel framecount start s) as [[] s'|e s'|s'];
    cbn [loop_summary final] in *.
  - destruct Hsum as (k & A & _ & _); exists k.
    split; [apply (ap_poll _ _ _ _ A)|]; split; [apply (ap_frame _ _ _ _ A)|].
    intros Hlo Hhi; unfold getFrame, gets.
    rewrite (ap_frame _ _ _ _ A), counted_in_range by assumption; reflexivity.
  - destruct Hsum as (k & drawn & A & _); exists (S k).
    split; [apply (cp_poll _ _ _ _ _ A)|]; split; [apply (cp_frame _ _ _ _ _ A)|].
    intros Hlo Hhi; unfold getFrame, gets.
    rewrite (cp_frame _ _ _ _ _ A), counted_in_range by assumption; reflexivity.
  - destruct Hsum as (k & A & _ & _); exists k.
    split; [apply (ap_poll _ _ _ _ A)|]; split; [apply (ap_frame _ _ _ _ A)|].
    intros Hlo Hhi; unfold getFrame, gets.
    rewrite (ap_frame _ _ _ _ A), counted_in_range by assumption; reflexivity.
Qed.

(** X4: the native events reach the handlers one call each, in the order
    GLFW hands them over, batch after batch: the handler calls the loop has
    made are those of the batches of the polls it has made, none dropped,
    none repeated, none invented (a close request has no handler). *)
Theorem frame_loop_dispatches_every_event_once_in_order :
  forall env fuel framecount start s,
  exists entered : nat,
    calls is_poll (trace (final (frame_loop env fuel framecount start s)))
    = (calls is_poll (trace s) + entered)%nat /\
    filter is_handler_call (trace (final (frame_loop env fuel framecount start s)))
    = filter is_handler_call (trace s)
      ++ flat_map handler_call (batches env (polls s) entered).
Proof.
  intros env fuel framecount start s.
  pose proof (frame_loop_summary env fuel framecount start s) as Hsum.
  destruct (frame_loop env fuel framecount start s) as [[] s'|e s'|s'];
    cbn [loop_summary final] in *.
  - destruct Hsum as (k & A & _ & _); exists k; destruct A; auto.
  - destruct Hsum as (k & drawn & A & _); exists (S k); destruct A; auto.
  - destruct Hsum as (k & A & _ & _); exists k; destruct A; auto.
Qed.

(** ** The ways [run] can go *)

(** The state in which the loop is reached. *)
Lemma gl_calls_none_all env :
  snd (gl_calls_until_raise env initGl_sequence) = None ->
  forall c, oglplus_result env c = None.
Proof.
  intros H c.
  destruct (oglplus_result env c) as [e|] eqn:Hc; [|reflexivity].
  destruct (gl_calls_some_raise env c) as (e' & He'); congruence.
Qed.

Lemma run_try_cases env fuel s :
  (glewInit_result env <> 0 /\
   run_try env fuel s
   = Raised (runtime_error "Failed to initialize GLEW")
       (add_trace (opening_calls env s) (targeted env s)))
  \/
  (glewInit_result env = 0 /\
   createRenderingTarget_result env = None /\
   run_try env fuel s
   = Raised (runtime_error "Unable to create OpenGL window") (contexted env s))
  \/
  (exists w e,
      glewInit_result env = 0 /\
      createRenderingTarget_result env = Some w /\
      snd (gl_calls_until_raise env initGl_sequence) = Some e /\
      run_try env fuel s
      = Raised e (add_trace (fst (gl_calls_until_raise env initGl_sequence))
                    (contexted env s)))
  \/
  (exists w,
      glewInit_result env = 0 /\
      createRenderingTarget_result env = Some w /\
      (forall c, oglplus_result env c = None) /\
      run_try env fuel s
      = match frame_loop env fuel 0 (clock env (ticks (ready env s)))
                (clocked env (ready env s)) with
        | Done _ s' => Done tt (log E_runShutdownHooks s')
        | Raised e s' =>
            Raised e (if unwound env e then log E_runShutdownHooks s' else s')
        | Running s' => Running s'
        end).
Proof.
  destruct (Z.eq_dec (glewInit_result env) 0) as [Hg|Hg];
    [|left; split; [assumption|apply run_try_glew_fails; assumption]].
  right.
  destruct (createRenderingTarget_result env) as [w|] eqn:Hw.
  - right.
    destruct (snd (gl_calls_until_raise env initGl_sequence)) as [e|] eqn:Hgl.
    + left; exists w, e; repeat split; try assumption.
      rewrite (run_try_contexted env fuel s w Hw Hg).
      unfold bind at 1; rewrite initGl_outcome_eq, Hgl; reflexivity.
    + right; exists w.
      pose proof (gl_calls_none_all env Hgl) as Ho.
      repeat split; try assumption.
      rewrite (run_try_ready env fuel s w Hw Hg Ho); apply guarded_loop_eq.
  - left; repeat split; try assumption.
    rewrite run_try_no_window by assumption.
    rewrite Hg; reflexivity.
Qed.

(** X5: the try block of run() runs to its end only in one way: a window
    was created, GLEW and initGl succeeded, the loop was left on the close
    flag, and shutdownGl was the last call.  In particular run() hands back
    0 without a failure message only with the close flag raised. *)
Theorem run_try_completes_only_through_the_close_flag :
  forall env fuel s s',
    run_try env fuel s = Done tt s' ->
    shouldClose s' = true /\
    window s' = createRenderingTarget_result env /\
    createRenderingTarget_result env <> None /\
    glewInit_result env = 0 /\
    (forall c, oglplus_result env c = None) /\
    exists before, trace s' = before ++ [E_runShutdownHooks].
Proof.
  intros env fuel s s' H.
  destruct (run_try_cases env fuel s)
    as [(_ & E)|[(_ & _ & E)|[(w & e & _ & _ & _ & E)|(w & Hg & Hw & Ho & E)]]];
    rewrite E in H; try discriminate H.
  pose proof (frame_loop_summary env fuel 0 (clock env (ticks (ready env s)))
                (clocked env (ready env s))) as Hsum.
  destruct (frame_loop env fuel 0 _ _) as [[] s1|e s1|s1];
    try discriminate H.
  injection H as <-.
  destruct Hsum as (k & A & Hclose & _).
  split; [exact Hclose|].
  split; [cbn [window log add_trace]; rewrite (ap_window _ _ _ _ A); reflexivity|].
  split; [congruence|].
  split; [assumption|]. split; [assumption|].
  exists (trace s1); reflexivity.
Qed.

Lemma run_try_completes_only_through_the_close_flag_witness :
  shouldClose (final (run_try (plain_env (escape_at 1) clock_16ms) 5
                        (created (640, 480) (0, 0)))) = true /\
  window (final (run_try (plain_env (escape_at 1) clock_16ms) 5
                   (created (640, 480) (0, 0)))) = Some 1%nat.
Proof.
  assert (E : run_try (plain_env (escape_at 1) clock_16ms) 5
                (created (640, 480) (0, 0))
              = Done tt (final (run_try (plain_env (escape_at 1) clock_16ms) 5
                                  (created (640, 480) (0, 0)))))
    by (vm_compute; reflexivity).
  destruct (run_try_completes_only_through_the_close_flag _ _ _ _ E)
    as (Hclose & Hwin & _).
  split; [exact Hclose|exact Hwin].
Defined.

(** X6: when glewInit() reports a failure, postCreate stops there: run()
    writes the GLEW message and returns 0 whether or not a window was
    created, the window test is never reached, and no GL call, no debug
    registration, no pass of the loop and no shutdownGl is made.  The
    aspect members were already set. *)
Theorem run_stops_at_a_glew_failure :
  forall env fuel s,
    glewInit_result env <> 0 ->
    exists s',
      run env fuel s = Done 0 s' /\
      trace s' =
        trace s
        ++ preCreate_calls env
        ++ [E_createRenderingTarget (windowSize s) (windowPosition s)]
        ++ postCreate_head (createRenderingTarget_result env)
        ++ [E_SAY "Failed to initialize GLEW"] /\
      window s' = createRenderingTarget_result env /\
      windowAspectInverse s'
      = f_div (f_lit 1 1) (f_aspect (fst (windowSize s)) (snd (windowSize s))).
Proof.
  intros env fuel s Hg.
  rewrite run_eq, run_try_glew_fails by assumption.
  eexists; split; [reflexivity|].
  cbn [trace window windowAspectInverse log add_trace targeted set_aspect
         set_window].
  unfold opening_calls; rewrite <- !app_assoc.
  repeat split.
Qed.

Lemma run_stops_at_a_glew_failure_witness :
  exists s',
    run (with_glew 1 (plain_env no_events clock_16ms)) 5 (created (640, 480) (0, 0))
    = Done 0 s' /\
    trace s' =
      [E_glfwWindowHint GLFW_DEPTH_BITS (hint_int 16);
       E_glfwWindowHint GLFW_CONTEXT_VERSION_MAJOR (hint_int 3);
       E_glfwWindowHint GLFW_CONTEXT_VERSION_MINOR (hint_int 3);
       E_glfwWindowHint GLFW_OPENGL_PROFILE GLFW_OPENGL_CORE_PROFILE;
       E_createRenderingTarget (640, 480) (0, 0);
       E_glfwMakeContextCurrent (Some 1%nat);
       E_glfwSetWindowUserPointer (Some 1%nat);
       E_glfwSetKeyCallback (Some 1%nat);
       E_glfwSetMouseButtonCallback (Some 1%nat);
       E_glfwSetCursorPosCallback (Some 1%nat);
       E_glfwSetCursorEnterCallback (Some 1%nat);
       E_glfwSetCharCallback (Some 1%nat);
       E_glfwSetScrollCallback (Some 1%nat);
       E_glfwSwapInterval 1; E_glewInit;
       E_SAY "Failed to initialize GLEW"] /\
    window s' = Some 1%nat /\
    windowAspectInverse s' = f_div (f_lit 1 1) (f_aspect 640 480).
Proof.
  apply (run_stops_at_a_glew_failure
           (with_glew 1 (plain_env no_events clock_16ms)) 5
           (created (640, 480) (0, 0))).
  discriminate.
Defined.

Lemma loop_calls_contexted env s :
  calls is_loop_call (trace (contexted env s)) = calls is_loop_call (trace s).
Proof.
  cbn [contexted targeted trace add_trace set_aspect set_window].
  unfold opening_calls.
  rewrite !calls_app, calls_preCreate, calls_postCreate_tail_loop
    by reflexivity.
  unfold calls; cbn; lia.
Qed.

Lemma calls_gl_calls p env cs :
  (forall c, p (E_oglplus c) = false) ->
  calls p (fst (gl_calls_until_raise env cs)) = O.
Proof.
  intros Hp; apply calls_none_of; intros e He.
  pose proof (gl_calls_are_gl_calls env cs) as Hall.
  rewrite forallb_forall in Hall; specialize (Hall e He).
  destruct e; try discriminate Hall; apply Hp.
Qed.

(** X7: an exception from a GL call of initGl leaves run() before the guard
    that calls shutdownGl exists.  The GL calls after the failing one are
    not made, the loop is not entered and shutdownGl is not called, although
    the window and its context were created; a runtime_error is written out
    and answered with 0, anything else leaves run(). *)
Theorem run_leaves_an_initGl_failure_unguarded :
  forall env fuel s w c,
    createRenderingTarget_result env = Some w ->
    glewInit_result env = 0 ->
    oglplus_result env c <> None ->
    exists e,
      snd (gl_calls_until_raise env initGl_sequence) = Some e /\
      run env fuel s
      = match e with
        | runtime_error what =>
            Done 0 (add_trace
                      (fst (gl_calls_until_raise env initGl_sequence)
                       ++ [E_SAY what])
                      (contexted env s))
        | other_exception _ =>
            Raised e (add_trace (fst (gl_calls_until_raise env initGl_sequence))
                        (contexted env s))
        end /\
      calls is_shutdown (trace (final (run env fuel s)))
      = calls is_shutdown (trace s) /\
      calls is_loop_call (trace (final (run env fuel s)))
      = calls is_loop_call (trace s).
Proof.
  intros env fuel s w c Hw Hg Hc.
  destruct (gl_calls_some_raise env c Hc) as (e & He).
  exists e; split; [exact He|].
  assert (Hrun : run_try env fuel s
                 = Raised e (add_trace (fst (gl_calls_until_raise env initGl_sequence))
                               (contexted env s))).
  { rewrite (run_try_contexted env fuel s w Hw Hg).
    unfold bind at 1; rewrite initGl_outcome_eq, He; reflexivity. }
  rewrite run_eq, Hrun.
  destruct e as [what|what]; (split; [|split]);
    unfold log; rewrite ?add_trace_add_trace; try reflexivity;
    cbn [final trace add_trace];
    rewrite ?calls_app, ?shutdowns_contexted, ?loop_calls_contexted,
      ?calls_gl_calls by reflexivity;
    unfold calls; cbn; lia.
Qed.

Lemma run_leaves_an_initGl_failure_unguarded_witness :
  exists e,
    snd (gl_calls_until_raise (with_oglplus cull_face_fails
                                 (plain_env no_events clock_16ms))
           initGl_sequence) = Some e /\
    run (with_oglplus cull_face_fails (plain_env no_events clock_16ms)) 5
      (created (640, 480) (0, 0))
    = match e with
      | runtime_error what =>
          Done 0 (add_trace
                    (fst (gl_calls_until_raise
                            (with_oglplus cull_face_fails
                               (plain_env no_events clock_16ms))
                            initGl_sequence)
                     ++ [E_SAY what])
                    (contexted (with_oglplus cull_face_fails
                                  (plain_env no_events clock_16ms))
                       (created (640, 480) (0, 0))))
      | other_exception _ =>
          Raised e (add_trace
                      (fst (gl_calls_until_raise
                              (with_oglplus cull_face_fails
                                 (plain_env no_events clock_16ms))
                              initGl_sequence))
                      (contexted (with_oglplus cull_face_fails
                                    (plain_env no_events clock_16ms))
                         (created (640, 480) (0, 0))))
      end /\
    calls is_shutdown
      (trace (final (run (with_oglplus cull_face_fails
                            (plain_env no_events clock_16ms)) 5
                       (created (640, 480) (0, 0))))) = O /\
    calls is_loop_call
      (trace (final (run (with_oglplus cull_face_fails
                            (plain_env no_events clock_16ms)) 5
                       (created (640, 480) (0, 0))))) = O.
Proof.
  apply (run_leaves_an_initGl_failure_unguarded
           (with_oglplus cull_face_fails (plain_env no_events clock_16ms)) 5
           (created (640, 480) (0, 0)) 1%nat EnableCullFace);
    [reflexivity|reflexivity|discriminate].
Defined.

(** The handle [run] holds when it is left, or while it is still going. *)
Lemma run_final_window env fuel s :
  window (final (run env fuel s)) = createRenderingTarget_result env.
Proof.
  rewrite run_eq.
  destruct (run_try_cases env fuel s)
    as [(_ & E)|[(_ & _ & E)|[(w & e & _ & _ & _ & E)|(w & Hg & Hw & Ho & E)]]];
    rewrite E.
  - reflexivity.
  - reflexivity.
  - destruct e; reflexivity.
  - pose proof (frame_loop_summary env fuel 0 (clock env (ticks (ready env s)))
                  (clocked env (ready env s))) as Hsum.
    destruct (frame_loop env fuel 0 _ _) as [[] s1|e s1|s1];
      cbn [loop_summary] in Hsum.
    + destruct Hsum as (k & A & _ & _).
      cbn [final window log add_trace].
      rewrite (ap_window _ _ _ _ A); reflexivity.
    + destruct Hsum as (k & drawn & A & _).
      assert (H : window s1 = createRenderingTarget_result env)
        by (rewrite (cp_window _ _ _ _ _ A); reflexivity).
      destruct e; cbn [final window log add_trace];
        destruct (unwound env _); exact H.
    + destruct Hsum as (k & A & _ & _).
      cbn [final]; rewrite (ap_window _ _ _ _ A); reflexivity.
Qed.

(** X8: the window member is assigned once, from createRenderingTarget,
    and nothing in run(), in the loop or in the default handlers assigns it
    again: in every outcome of run(), also after a failure in the set-up or
    in the loop body, getWindow() answers with the handle
    createRenderingTarget handed back, null included, and changes nothing. *)
Theorem run_holds_the_created_window :
  forall env fuel s,
    getWindow (final (run env fuel s))
    = Done (createRenderingTarget_result env) (final (run env fuel s)).
Proof.
  intros env fuel s; unfold getWindow, gets.
  rewrite run_final_window; reflexivity.
Qed.

(** ** When the loop ends *)

Lemma batches_flag_none env first k :
  existsb raises_flag (batches env first k) = false ->
  forall j, (j < k)%nat -> existsb raises_flag (pending env (first + j)) = false.
Proof.
  induction k as [|k IH]; intros H j Hj; [lia|].
  rewrite batches_flag_succ in H; apply orb_false_iff in H; destruct H as [H1 H2].
  destruct (Nat.eq_dec j k) as [->|Hne]; [exact H2|].
  apply IH; [exact H1|lia].
Qed.

(** Where a loop that ends on the flag has got to. *)
Lemma frame_loop_done_at_first_request env fuel framecount start s s' :
  shouldClose s = false ->
  frame_loop env fuel framecount start s = Done tt s' ->
  exists k,
    after_passes env (S k) s s' /\
    existsb raises_flag (pending env (polls s + k)) = true /\
    (forall j, (j < k)%nat ->
               existsb raises_flag (pending env (polls s + j)) = false).
Proof.
  intros Hs H.
  pose proof (frame_loop_summary env fuel framecount start s) as Hsum.
  rewrite H in Hsum; destruct Hsum as (k0 & A & Hclose & _).
  pose proof (ap_flag _ _ _ _ A) as Hflag.
  rewrite Hclose, Hs in Hflag; cbn [orb] in Hflag.
  destruct k0 as [|k]; [discriminate Hflag|].
  exists k; split; [exact A|].
  destruct (ap_heads _ _ _ _ A) as [Hk|Hheads]; [discriminate Hk|].
  rewrite Hs in Hheads; cbn [orb pred] in Hheads.
  rewrite batches_flag_succ, Hheads in Hflag; cbn [orb] in Hflag.
  split; [symmetry; exact Hflag|].
  apply batches_flag_none; exact Hheads.
Qed.

(** X9: a loop entered with the close flag down ends on the flag exactly
    after the pass whose poll brought the first close request (an escape
    press or the window being closed): no earlier batch held one, that pass
    still ran to its end, and no later batch was polled. *)
Theorem frame_loop_ends_after_the_first_close_request :
  forall env fuel framecount start s s',
    shouldClose s = false ->
    frame_loop env fuel framecount start s = Done tt s' ->
    exists k,
      calls is_poll (trace s') = (calls is_poll (trace s) + S k)%nat /\
      calls is_swap (trace s') = (calls is_swap (trace s) + S k)%nat /\
      polls s' = (polls s + S k)%nat /\
      existsb raises_flag (pending env (polls s + k)) = true /\
      (forall j, (j < k)%nat ->
                 existsb raises_flag (pending env (polls s + j)) = false).
Proof.
  intros env fuel framecount start s s' Hs H.
  destruct (frame_loop_done_at_first_request env fuel framecount start s s' Hs H)
    as (k & A & Hk & Hbefore).
  exists k.
  split; [apply (ap_poll _ _ _ _ A)|].
  split; [apply (ap_swap _ _ _ _ A)|].
  split; [apply (ap_queue _ _ _ _ A)|].
  split; assumption.
Qed.

Lemma frame_loop_ends_after_the_first_close_request_witness :
  exists k,
    calls is_poll
      (trace (final (frame_loop (plain_env (escape_at 2) clock_16ms) 9 0 0
                       (created (640, 480) (0, 0)))))
    = S k /\
    calls is_swap
      (trace (final (frame_loop (plain_env (escape_at 2) clock_16ms) 9 0 0
                       (created (640, 480) (0, 0)))))
    = S k /\
    polls (final (frame_loop (plain_env (escape_at 2) clock_16ms) 9 0 0
                    (created (640, 480) (0, 0))))
    = S k /\
    existsb raises_flag (escape_at 2 k) = true /\
    (forall j, (j < k)%nat -> existsb raises_flag (escape_at 2 j) = false).
Proof.
  assert (E : frame_loop (plain_env (escape_at 2) clock_16ms) 9 0 0
                (created (640, 480) (0, 0))
              = Done tt (final (frame_loop (plain_env (escape_at 2) clock_16ms)
                                  9 0 0 (created (640, 480) (0, 0)))))
    by (vm_compute; reflexivity).
  exact (frame_loop_ends_after_the_first_close_request
           (plain_env (escape_at 2) clock_16ms) 9 0 0
           (created (640, 480) (0, 0)) _ eq_refl E).
Defined.

(** X10: over the whole loop, in every outcome, the number of screenshot
    calls is the number of shift+S presses among the native events of the
    polls made: a key held down (repeat events), a release or a press
    without shift adds none, however many polls go by. *)
Theorem frame_loop_captures_once_per_capture_press :
  forall env fuel framecount start s,
  exists entered : nat,
    calls is_poll (trace (final (frame_loop env fuel framecount start s)))
    = (calls is_poll (trace s) + entered)%nat /\
    calls is_screenshot (trace (final (frame_loop env fuel framecount start s)))
    = (calls is_screenshot (trace s)
       + List.length (filter is_capture_press (batches env (polls s) entered)))%nat.
Proof.
  intros env fuel framecount start s.
  pose proof (frame_loop_summary env fuel framecount start s) as Hsum.
  destruct (frame_loop env fuel framecount start s) as [[] s'|e s'|s'];
    cbn [loop_summary final] in *.
  - destruct Hsum as (k & A & _ & _); exists k.
    split; [apply (ap_poll _ _ _ _ A)|apply (ap_screenshots _ _ _ _ A)].
  - destruct Hsum as (k & drawn & A & _); exists (S k).
    split; [apply (cp_poll _ _ _ _ _ A)|apply (cp_screenshots _ _ _ _ _ A)].
  - destruct Hsum as (k & A & _ & _); exists k.
    split; [apply (ap_poll _ _ _ _ A)|apply (ap_screenshots _ _ _ _ A)].
Qed.

(** X11: with hooks that return, a loop entered with the flag down ends
    after exactly k + 1 passes when the first close request comes with the
    poll of pass k + 1 and the fuel reaches that far; the frame counter has
    then gone up by k + 1. *)
Theorem frame_loop_runs_until_the_first_close_request :
  forall env fuel framecount start s k,
    (forall f, update_hook env f = None) ->
    (forall f, draw_hook env f = None) ->
    shouldClose s = false ->
    existsb raises_flag (pending env (polls s + k)) = true ->
    (forall j, (j < k)%nat ->
               existsb raises_flag (pending env (polls s + j)) = false) ->
    (k < fuel)%nat ->
    exists s',
      frame_loop env fuel framecount start s = Done tt s' /\
      shouldClose s' = true /\
      calls is_update (trace s') = (calls is_update (trace s) + S k)%nat /\
      calls is_draw (trace s') = (calls is_draw (trace s) + S k)%nat /\
      calls is_swap (trace s') = (calls is_swap (trace s) + S k)%nat /\
      frame s' = counted (frame s) (S k).
Proof.
  intros env fuel framecount start s k Hu Hd Hs Hk Hbefore Hfuel.
  destruct (frame_loop_reaches_close env Hu Hd k fuel framecount start s Hk Hfuel)
    as (s' & Hloop & Hclose).
  exists s'; split; [exact Hloop|]; split; [exact Hclose|].
  destruct (frame_loop_done_at_first_request env fuel framecount start s s' Hs Hloop)
    as (k' & A & Hk' & Hbefore').
  assert (k' = k) as ->.
  { destruct (Nat.lt_trichotomy k' k) as [Hlt|[Heq|Hgt]]; [|exact Heq|].
    - rewrite (Hbefore k' Hlt) in Hk'; discriminate Hk'.
    - rewrite (Hbefore' k Hgt) in Hk; discriminate Hk. }
  split; [apply (ap_update _ _ _ _ A)|].
  split; [apply (ap_draw _ _ _ _ A)|].
  split; [apply (ap_swap _ _ _ _ A)|apply (ap_frame _ _ _ _ A)].
Qed.

Lemma frame_loop_runs_until_the_first_close_request_witness :
  exists s',
    frame_loop (plain_env (escape_at 2) clock_16ms) 9 0 0
      (created (640, 480) (0, 0)) = Done tt s' /\
    shouldClose s' = true /\
    calls is_update (trace s') = 3%nat /\
    calls is_draw (trace s') = 3%nat /\
    calls is_swap (trace s') = 3%nat /\
    frame s' = 3.
Proof.
  apply (frame_loop_runs_until_the_first_close_request
           (plain_env (escape_at 2) clock_16ms) 9 0 0
           (created (640, 480) (0, 0)) 2%nat);
    try reflexivity; try lia.
  intros j Hj.
  destruct j as [|[|j]]; [reflexivity|reflexivity|lia].
Defined.

(** ** The frame tally of the FPS metric *)

Lemma loop_body_done env framecount start s locals s' :
  loop_body env framecount start s = Done locals s' ->
  ((2000 <=? long_sub (clock env (ticks s)) start) = true /\
   locals = (0, clock env (ticks s)) /\
   s' = log (E_SAY_FPS (new_fps framecount start (clock env (ticks s))))
          (set_fps (new_fps framecount start (clock env (ticks s)))
             (presented env s)))
  \/
  ((2000 <=? long_sub (clock env (ticks s)) start) = false /\
   locals = (int_incr framecount, start) /\
   s' = presented env s).
Proof.
  rewrite loop_body_eq.
  destruct (update_hook env _); [discriminate|].
  destruct (draw_hook env _); [discriminate|]; cbv zeta.
  destruct (2000 <=? _); intros H; injection H as <- <-; [left|right];
    repeat split.
Qed.

Lemma fps_reports_after_pass env framecount start s locals s' :
  loop_body env framecount start s = Done locals s' ->
  (calls is_say_fps (trace s) <= calls is_say_fps (trace s'))%nat.
Proof.
  intros H; destruct (loop_body_done _ _ _ _ _ _ H) as [(_ & _ & ->)|(_ & _ & ->)].
  - cbn [trace log add_trace set_fps].
    rewrite calls_app, presented_fps_reports; lia.
  - rewrite presented_fps_reports; lia.
Qed.

Lemma iterate_fps_reports_grow env n :
  forall framecount start s framecount' start' s',
    iterate env n framecount start s = Some (framecount', start', s') ->
    (calls is_say_fps (trace s) <= calls is_say_fps (trace s'))%nat.
Proof.
  induction n as [|n IH]; intros framecount start s framecount' start' s' H.
  - injection H as _ _ <-; lia.
  - cbn [iterate] in H.
    destruct (shouldClose s); [discriminate|].
    destruct (loop_body env framecount start s) as [locals s1|e s1|s1] eqn:Hbody;
      try discriminate.
    apply fps_reports_after_pass in Hbody.
    apply IH in H; lia.
Qed.

(** X12: between two FPS reports the tally is the number of passes that ran
    to their end since the earlier one: after n passes without a report the
    tally has gone up by n (as long as it fits an int), the start of the
    measurement has not moved and the stored FPS value is the old one. *)
Theorem fps_tally_counts_the_passes_since_the_last_report :
  forall env n framecount start s framecount' start' s',
    iterate env n framecount start s = Some (framecount', start', s') ->
    calls is_say_fps (trace s') = calls is_say_fps (trace s) ->
    - 2 ^ 31 <= framecount ->
    framecount + Z.of_nat n <= INT_MAX ->
    framecount' = framecount + Z.of_nat n /\
    start' = start /\
    fps s' = fps s.
Proof.
  intros env n; induction n as [|n IH];
    intros framecount start s framecount' start' s' H Hsame Hlo Hhi.
  - injection H as <- <- <-; repeat split; lia.
  - cbn [iterate] in H.
    destruct (shouldClose s); [discriminate|].
    destruct (loop_body env framecount start s) as [locals s1|e s1|s1] eqn:Hbody;
      try discriminate.
    pose proof (iterate_fps_reports_grow _ _ _ _ _ _ _ _ H) as Hgrow.
    destruct (loop_body_done _ _ _ _ _ _ Hbody) as [(_ & _ & ->)|(_ & -> & ->)].
    + exfalso; revert Hgrow; cbn [trace log add_trace set_fps].
      rewrite calls_app, presented_fps_reports; unfold calls at 2; cbn; lia.
    + cbn [fst snd] in H.
      rewrite presented_fps_reports in Hgrow.
      destruct (IH _ _ _ _ _ _ H) as (Hfc & Hst & Hfps).
      * rewrite presented_fps_reports; exact Hsame.
      * rewrite int_incr_in_range by (unfold INT_MAX in *; lia); lia.
      * rewrite int_incr_in_range by (unfold INT_MAX in *; lia); lia.
      * rewrite int_incr_in_range in Hfc by (unfold INT_MAX in *; lia).
        repeat split; [lia|exact Hst|exact Hfps].
Qed.

Lemma fps_tally_counts_the_passes_since_the_last_report_witness :
  exists framecount' start' s',
    iterate (plain_env no_events clock_16ms) 3 0 0 (created (640, 480) (0, 0))
    = Some (framecount', start', s') /\
    framecount' = 3 /\ start' = 0 /\ fps s' = f_lit 0 1.
Proof.
  eexists; eexists; eexists; split; [vm_compute; reflexivity|].
  refine (fps_tally_counts_the_passes_since_the_last_report
            (plain_env no_events clock_16ms) 3 0 0 (created (640, 480) (0, 0))
            _ _ _ _ _ _ _).
  - vm_compute; reflexivity.
  - vm_compute; reflexivity.
  - vm_compute; discriminate.
  - vm_compute; discriminate.
Defined.

(** ** The text overlay and the rest of the object *)

(** X13: renderStringAt calls the text renderer exactly once, with the font
    size 18 and the cursor's y scaled by the inverse aspect of the window,
    and in every outcome it leaves the window handle, the geometry, the
    frame counter, the FPS value and the close flag as they were: nothing
    but the two matrix stacks can differ afterwards. *)
Theorem renderStringAt_calls_the_renderer_once_and_keeps_the_members :
  forall env str pos s,
    trace (final (renderStringAt env str pos s))
    = trace s
      ++ [E_renderString str
            (fst pos, f_mul (windowAspectInverse s) (snd pos)) (f_lit 18 1)] /\
    window (final (renderStringAt env str pos s)) = window s /\
    windowSize (final (renderStringAt env str pos s)) = windowSize s /\
    windowPosition (final (renderStringAt env str pos s)) = windowPosition s /\
    windowAspectInverse (final (renderStringAt env str pos s))
    = windowAspectInverse s /\
    frame (final (renderStringAt env str pos s)) = frame s /\
    fps (final (renderStringAt env str pos s)) = fps s /\
    shouldClose (final (renderStringAt env str pos s)) = shouldClose s.
Proof.
  intros env str pos s; rewrite renderStringAt_eq; cbv zeta.
  destruct (snd (renderString_effect env str _ _ _)); repeat split.
Qed.

(** With a text renderer that returns and hands the stacks back, a call
    leaves nothing behind but its entry in the trace. *)
Lemma renderStringAt_balanced env str pos s :
  (forall str cursor size stacks,
      renderString_effect env str cursor size stacks = (stacks, None)) ->
  renderStringAt env str pos s
  = Done tt (log (E_renderString str (overlay_cursor s pos) (f_lit 18 1)) s).
Proof.
  intros Hr; rewrite renderStringAt_eq; cbv zeta; rewrite Hr; cbn [fst snd].
  unfold overlay_modelview, overlay_projection, identity.
  rewrite !pop_push_set_top.
  open_state s; reflexivity.
Qed.

(** X14: two calls of renderStringAt in a row, with a text renderer that
    returns and hands the stacks back as it got them, leave both stacks as
    they were before the first call: the push/pop pairs of the calls do not
    add up, and the second call sees the same inverse aspect as the first. *)
Theorem renderStringAt_twice_restores_stacks :
  forall env str1 pos1 str2 pos2 s,
    (forall str cursor size stacks,
        renderString_effect env str cursor size stacks = (stacks, None)) ->
    exists s',
      (renderStringAt env str1 pos1 ;; renderStringAt env str2 pos2) s
      = Done tt s' /\
      modelview s' = modelview s /\
      projection s' = projection s /\
      trace s'
      = trace s
        ++ [E_renderString str1 (overlay_cursor s pos1) (f_lit 18 1);
            E_renderString str2 (overlay_cursor s pos2) (f_lit 18 1)].
Proof.
  intros env str1 pos1 str2 pos2 s Hr.
  unfold bind; rewrite !renderStringAt_balanced by assumption.
  eexists; split; [reflexivity|].
  cbn [modelview projection trace log add_trace].
  rewrite <- app_assoc; repeat split.
Qed.

Lemma renderStringAt_twice_restores_stacks_witness :
  exists s',
    (renderStringAt (plain_env no_events clock_16ms) "FPS" (f_lit 0 1, f_lit 0 1) ;;
     renderStringAt (plain_env no_events clock_16ms) "60.0" (f_lit 1 2, f_lit 0 1))
      (created (640, 480) (0, 0))
    = Done tt s' /\
    modelview s' = modelview (created (640, 480) (0, 0)) /\
    projection s' = projection (created (640, 480) (0, 0)) /\
    trace s'
    = [E_renderString "FPS" (f_lit 0 1, f_mul (f_lit 1 1) (f_lit 0 1)) (f_lit 18 1);
       E_renderString "60.0" (f_lit 1 2, f_mul (f_lit 1 1) (f_lit 0 1)) (f_lit 18 1)].
Proof.
  apply (renderStringAt_twice_restores_stacks
           (plain_env no_events clock_16ms) "FPS" (f_lit 0 1, f_lit 0 1)
           "60.0" (f_lit 1 2, f_lit 0 1) (created (640, 480) (0, 0))).
  reflexivity.
Defined.

(** X15: destroyWindow() does not forget the handle.  Whatever run() did
    before, the destructor destroys the handle createRenderingTarget handed
    back and then terminates GLFW; when destroyWindow() was called first,
    that same handle goes to glfwDestroyWindow a second time. *)
Theorem destructor_destroys_the_created_window_again :
  forall env fuel s,
    Lifetime.destructor (final (run env fuel s))
    = [Lifetime.C_glfwDestroyWindow (createRenderingTarget_result env);
       Lifetime.C_glfwTerminate] /\
    fst (Lifetime.destroyWindow (final (run env fuel s))) = final (run env fuel s) /\
    snd (Lifetime.destroyWindow (final (run env fuel s)))
    ++ Lifetime.destructor (fst (Lifetime.destroyWindow (final (run env fuel s))))
    = [Lifetime.C_glfwSetKeyCallback_nullptr (createRenderingTarget_result env);
       Lifetime.C_glfwDestroyWindow (createRenderingTarget_result env);
       Lifetime.C_glfwDestroyWindow (createRenderingTarget_result env);
       Lifetime.C_glfwTerminate].
Proof.
  intros env fuel s.
  pose proof (run_final_window env fuel s) as Hw.
  unfold Lifetime.destructor, Lifetime.destroyWindow; cbn [fst snd app].
  rewrite Hw; repeat split.
Qed.
